(** * AI capsule wardrobe generator: colour classes, outfit scoring, capsule

    A shallow embedding of the recommendation core of the repository:
    - [outfitgenerator.py]: dominant-colour extraction and the warm / cool /
      neutral classifier;
    - [wardrobe_model.py]: the in-memory item list and the upload that
      fills it, the outfit combinator, the colour and style scores and the
      31-slot capsule;
    - [app.py]: the [/upload] route, and the [/capsule] route with its
      minimum-items test.

    Python [int] is [Z], Python [float] is an IEEE binary64 value
    ([PrimFloat.float]), [str] is [string], a [dict] with string keys is a
    [gmap string _].  The calls into OpenCV, scikit-learn and torch are
    parameters of the development: a [Section] variable per call, with the
    failure of a call made explicit in its result type. *)

From Stdlib Require Import ZArith Uint63.
From Stdlib Require Import PrimFloat FloatOps FloatAxioms SpecFloat.
From Equations Require Import Equations.
From stdpp Require Import gmap strings list pretty.

Set Warnings "-inexact-float".

(** ** Results of code that may raise *)

Inductive outcome (E A : Type) : Type :=
  | Return (a : A)
  | Raise (e : E).
Arguments Return {E A} a.
Arguments Raise {E A} e.

#[global] Instance outcome_bind {E} : MBind (outcome E) :=
  λ A B f m, match m with Return a => f a | Raise e => Raise e end.

(** ** Python numerics *)

(** [float(n)] for a non-negative [int] below [2^63] (image sizes, list
    lengths). *)
Definition py_float (n : Z) : float := of_uint63 (Uint63.of_Z n).

(** [int(f)]: truncation towards zero of a finite float. *)
Definition py_int (f : float) : Z :=
  match Prim2SF f with
  | SpecFloat.S754_finite s m e =>
      let a := if (0 <=? e)%Z then (Z.pos m * 2 ^ e)%Z
               else (Z.pos m `div` 2 ^ (- e))%Z in
      if s then (- a)%Z else a
  | _ => 0%Z
  end.

(** ** outfitgenerator.py *)

Module OutfitGenerator.
Local Open Scope Z_scope.

Definition BGR : Type := Z * Z * Z.
Definition HSV : Type := Z * Z * Z.

(** An [H x W x 3] array of 8-bit channels: its shape and its pixels. *)
Record ndarray : Type := mk_ndarray {
  shape_h : Z;
  shape_w : Z;
  pixel_at : Z → Z → BGR
}.

(** [a[y1:y2, x1:x2]] for non-negative bounds: numpy clamps both ends of a
    slice to the axis length. *)
Definition slice2 (a : ndarray) (y1 y2 x1 x2 : Z) : ndarray :=
  {| shape_h := Z.max 0 (Z.min y2 (shape_h a) - Z.min y1 (shape_h a));
     shape_w := Z.max 0 (Z.min x2 (shape_w a) - Z.min x1 (shape_w a));
     pixel_at := λ y x, pixel_at a (y1 + y) (x1 + x) |}.

(** [a.reshape(-1, 3)]: the pixels in row-major order. *)
Definition reshape_pixels (a : ndarray) : list BGR :=
  flat_map (λ y, map (λ x, pixel_at a y x) (seqZ 0 (shape_w a)))
           (seqZ 0 (shape_h a)).

(** The exceptions of the libraries the extractor calls, and the exceptions
    an extraction can end in.  The source declares no exception class of its
    own and has no [raise] and no [try]; [ColorExtractionError] is the name
    the specification uses, present here so that statements about it can be
    written. *)
Inductive library_error : Type :=
  | cv2_error
  | sklearn_error
  | numpy_ValueError
  | numpy_IndexError.

Inductive exn : Type :=
  | ColorExtractionError
  | LibraryError (e : library_error).

Definition call {A} (m : outcome library_error A) : outcome exn A :=
  match m with
  | Return a => Return a
  | Raise e => Raise (LibraryError e)
  end.

(** The cast of one float to [np.uint8]: truncate, keep the low eight bits;
    and [a.astype(np.uint8)] on a [(k, 3)] array of floats. *)
Definition uint8_of_float (f : float) : Z := py_int f `mod` 256.

Definition astype_uint8 (a : list (float * float * float)) : list BGR :=
  map (λ '(b, g, r), (uint8_of_float b, uint8_of_float g, uint8_of_float r)) a.

(** [a.size // 3]: the number of pixels of an image. *)
Definition pixel_count (a : ndarray) : Z := shape_h a * shape_w a.

Fixpoint argmax_from (best_i : nat) (best : Z) (i : nat) (l : list Z) : nat :=
  match l with
  | [] => best_i
  | x :: r => if best <? x then argmax_from i x (S i) r
              else argmax_from best_i best (S i) r
  end.

(** [np.argmax]: the first index of a maximum; an empty array is refused. *)
Definition np_argmax (l : list Z) : outcome library_error nat :=
  match l with
  | [] => Raise numpy_ValueError
  | x :: r => Return (argmax_from 0%nat x 1%nat r)
  end.

(** Lines 76-81 of [get_dominant_color_bgr]: the centre crop. *)
Definition center_crop (image_bgr : ndarray) (crop_size : float) : ndarray :=
  let h := shape_h image_bgr in
  let w := shape_w image_bgr in
  if ((0 <? crop_size) && (crop_size <? 1.0))%float then
    let ch := py_int (py_float h * crop_size) in
    let cw := py_int (py_float w * crop_size) in
    let y1 := (h - ch) `div` 2 in
    let x1 := (w - cw) `div` 2 in
    slice2 image_bgr y1 (y1 + ch) x1 (x1 + cw)
  else image_bgr.

Section Libraries.

(** [cv2.resize(img, size, interpolation=cv2.INTER_AREA)]. *)
Variable cv2_resize : ndarray → Z * Z → outcome library_error ndarray.
(** [KMeans(n_clusters=k, random_state=42, n_init=10).fit(pixels)
    .cluster_centers_]. *)
Variable kmeans_cluster_centers :
  Z → list BGR → outcome library_error (list (float * float * float)).
(** [cv2.cvtColor(_, cv2.COLOR_BGR2HSV)] on one 8-bit pixel. *)
Variable cv2_BGR2HSV : BGR → HSV.

Definition get_dominant_color_bgr
    (image_bgr : ndarray) (k : Z) (crop_size : float) : outcome exn BGR :=
  let image_bgr := center_crop image_bgr crop_size in
  img_small ← call (cv2_resize image_bgr (150, 150));
  let pixels := reshape_pixels img_small in
  centers_f ← call (kmeans_cluster_centers k pixels);
  let centers := astype_uint8 centers_f in
  let centers_hsv := map cv2_BGR2HSV centers in
  let sats := map (λ '(_, s, _), s) centers_hsv in
  idx ← call (np_argmax sats);
  match centers !! idx with
  | Some (b, g, r) => Return (b, g, r)
  | None => Raise (LibraryError numpy_IndexError)
  end.

Definition bgr_to_hsv (bgr : BGR) : HSV := cv2_BGR2HSV bgr.

End Libraries.

(** Default arguments of [get_dominant_color_bgr]. *)
Definition default_k : Z := 4.
Definition default_crop_size : float := 0.6%float.

Definition categorize_color (hsv : HSV) : string :=
  let '(h, s, v) := hsv in
  if (s <? 15) || (v <? 20) then "neutral"
  else if ((0 <=? h) && (h <=? 15) || (160 <=? h) && (h <=? 179)) && (40 <? s)
  then "warm"
  else if (15 <? h) && (h <=? 45) then "warm"
  else if (45 <? h) && (h <=? 120) then "cool"
  else if (120 <? h) && (h <=? 179) then "cool"
  else "neutral".

(** The same chain of tests, recording which [return] statement is taken. *)
Inductive branch : Type :=
  | LowSaturationOrDark
  | StrongRed
  | OrangeYellow
  | GreenCyanBlue
  | BlueMagenta
  | Fallback.

Definition categorize_color_branch (hsv : HSV) : branch :=
  let '(h, s, v) := hsv in
  if (s <? 15) || (v <? 20) then LowSaturationOrDark
  else if ((0 <=? h) && (h <=? 15) || (160 <=? h) && (h <=? 179)) && (40 <? s)
  then StrongRed
  else if (15 <? h) && (h <=? 45) then OrangeYellow
  else if (45 <? h) && (h <=? 120) then GreenCyanBlue
  else if (120 <? h) && (h <=? 179) then BlueMagenta
  else Fallback.

Definition branch_result (b : branch) : string :=
  match b with
  | LowSaturationOrDark => "neutral"
  | StrongRed => "warm"
  | OrangeYellow => "warm"
  | GreenCyanBlue => "cool"
  | BlueMagenta => "cool"
  | Fallback => "neutral"
  end.

End OutfitGenerator.

(** ** wardrobe_model.py *)

Module WardrobeModel.

Definition _pair_color_score (g1 g2 : string) : float :=
  if String.eqb g1 "neutral" || String.eqb g2 "neutral" then 3.0%float
  else if String.eqb g1 g2 then 2.5%float
  else 1.0%float.

(** The index pairs of [for i in range(n): for j in range(i + 1, n)], as the
    pairs of elements they select, in the order the loops visit them. *)
Fixpoint index_pairs {A} (l : list A) : list (A * A) :=
  match l with
  | [] => []
  | x :: r => map (pair x) r ++ index_pairs r
  end.

Definition _outfit_color_score (groups : list string) : float :=
  foldl (λ score '(gi, gj), (score + _pair_color_score gi gj)%float)
        0.0%float (index_pairs groups).

(** [np.mean] of a non-empty list of floats: the sum over the count.  The sum
    is taken left to right; no statement below depends on the order in which
    three or more terms are added. *)
Definition np_mean (a : list float) : float :=
  match a with
  | [] => (0.0 / 0.0)%float
  | x :: r => (foldl PrimFloat.add x r / py_float (Z.of_nat (length a)))%float
  end.

Definition w_color : float := 0.6%float.
Definition w_style : float := 0.4%float.

(** [scored.sort(key=lambda x: x[0], reverse=True)]: a stable sort by
    decreasing key.  An entry goes in front of the first later entry whose
    key is not larger, so entries of equal key keep their order.  (On keys
    that [<] orders totally, that is without NaN, every stable sort gives
    this list.) *)
Fixpoint insert_desc {A} (x : float * A) (l : list (float * A))
  : list (float * A) :=
  match l with
  | [] => [x]
  | y :: r => if (x.1 <? y.1)%float then y :: insert_desc x r else x :: y :: r
  end.

Definition sort_desc {A} (l : list (float * A)) : list (float * A) :=
  foldr insert_desc [] l.

(** Lines 223-225 of [_build_30_outfits]:
    [while len(best) < 31 and best: best.extend(best[:31 - len(best)])]. *)
Equations? extend_to_31 (best : list (list string)) : list (list string)
  by wf (31 - length best) lt :=
  extend_to_31 best with decide (length best < 31 ∧ 0 < length best) => {
    | left _ := extend_to_31 (best ++ take (31 - length best) best);
    | right _ := best }.
Proof. rewrite length_app, length_take. lia. Qed.

Record Outfit : Type := mk_Outfit {
  day : nat;
  items : list string
}.

Section Model.

(** A 1-D [torch.Tensor], and
    [F.cosine_similarity(e1.unsqueeze(0), e2.unsqueeze(0)).item()]. *)
Variable Tensor : Type.
Variable cosine_similarity : Tensor → Tensor → float.

Record Item : Type := mk_Item {
  id : string;
  image_path : string;
  filename : string;
  category : string;
  color_group : string;
  embedding : Tensor
}.

Record Combo : Type := mk_Combo {
  ids : list string;
  groups : list string;
  embeds : list Tensor
}.

Definition _cosine_sim (e1 e2 : Tensor) : float := cosine_similarity e1 e2.

Definition _outfit_style_score (embeddings : list Tensor) : float :=
  let sims := map (λ '(ei, ej), _cosine_sim ei ej) (index_pairs embeddings) in
  match sims with
  | [] => 0.0%float
  | _ :: _ => np_mean sims
  end.

Definition _make_combo (item_list : list Item) : Combo :=
  {| ids := map id item_list;
     groups := map color_group item_list;
     embeds := map embedding item_list |}.

(** Lines 180-182 of [_build_30_outfits]: the three category lists. *)
Definition tops (items : list Item) : list Item :=
  filter (λ it, category it = "top") items.
Definition bottoms (items : list Item) : list Item :=
  filter (λ it, category it = "bottom") items.
Definition jackets (items : list Item) : list Item :=
  filter (λ it, category it = "jacket") items.

(** Lines 184-200 of [_build_30_outfits]: the list [combos]. *)
Definition build_combos (items : list Item) : list Combo :=
  let tops := tops items in
  let bottoms := bottoms items in
  let jackets := jackets items in
  match tops, bottoms with
  | _ :: _, _ :: _ =>
      flat_map (λ t,
        flat_map (λ b,
          _make_combo [t; b] :: map (λ j, _make_combo [t; b; j]) jackets)
          bottoms)
        tops
  | _, _ => map (λ '(a, b), _make_combo [a; b]) (index_pairs items)
  end.

(** Lines 206-214: the list [scored]. *)
Definition score_combos (combos : list Combo) : list (float * list string) :=
  map (λ combo,
         let c_score := _outfit_color_score (groups combo) in
         let s_score := _outfit_style_score (embeds combo) in
         let total := (w_color * c_score + w_style * s_score)%float in
         (total, ids combo))
      combos.

(** Lines 216-221: the list [best] before it is extended. *)
Definition top_ranked (combos : list Combo) : list (list string) :=
  let scored := sort_desc (score_combos combos) in
  let top_k := 31 `min` length scored in
  map snd (take top_k scored).

Definition _build_30_outfits (items : list Item) : list (list string) :=
  let combos := build_combos items in
  match combos with
  | [] => take 30 (map (λ it, [id it]) items)
  | _ :: _ =>
      let best := top_ranked combos in
      let best := extend_to_31 best in
      take 31 best
  end.

Definition generate_capsule (_ITEMS : list Item)
  : list Outfit * gmap string Item :=
  match _ITEMS with
  | [] => ([], ∅)
  | _ :: _ =>
      let items_map := foldl (λ m item, <[id item := item]> m) ∅ _ITEMS in
      let outfits_item_ids := _build_30_outfits _ITEMS in
      let outfits :=
        imap (λ i item_ids, {| day := S i; items := item_ids |})
             outfits_item_ids in
      (outfits, items_map)
  end.

Definition get_item_count (_ITEMS : list Item) : nat := length _ITEMS.

End Model.

Arguments mk_Item {Tensor}.
Arguments id {Tensor}.
Arguments image_path {Tensor}.
Arguments filename {Tensor}.
Arguments category {Tensor}.
Arguments color_group {Tensor}.
Arguments embedding {Tensor}.
Arguments mk_Combo {Tensor}.
Arguments ids {Tensor}.
Arguments groups {Tensor}.
Arguments embeds {Tensor}.
Arguments _make_combo {Tensor}.
Arguments tops {Tensor}.
Arguments bottoms {Tensor}.
Arguments jackets {Tensor}.
Arguments build_combos {Tensor}.
Arguments _cosine_sim {Tensor}.
Arguments _outfit_style_score {Tensor}.
Arguments score_combos {Tensor}.
Arguments top_ranked {Tensor}.
Arguments _build_30_outfits {Tensor}.
Arguments generate_capsule {Tensor}.
Arguments get_item_count {Tensor}.

(** What an upload can end in: the failure of [Image.open(...).convert],
    of [og.get_image_embedding], or of [og.get_dominant_color_bgr]. *)
Inductive ingest_error : Type :=
  | PIL_error
  | embedding_error
  | color_error (e : OutfitGenerator.exn).

(** [cv2.cvtColor(rgb, cv2.COLOR_RGB2BGR)]: the channels in reverse order. *)
Definition cvtColor_RGB2BGR (rgb : OutfitGenerator.ndarray)
  : OutfitGenerator.ndarray :=
  {| OutfitGenerator.shape_h := OutfitGenerator.shape_h rgb;
     OutfitGenerator.shape_w := OutfitGenerator.shape_w rgb;
     OutfitGenerator.pixel_at := λ y x,
       let '(r, g, b) := OutfitGenerator.pixel_at rgb y x in (b, g, r) |}.

(** The calls [handle_new_item] makes outside this repository. *)
Record Libraries (Tensor PILImage : Type) : Type := mk_Libraries {
  (** [Image.open(image_path).convert("RGB")]. *)
  Image_open_convert_RGB : string → outcome unit PILImage;
  (** [og.get_image_embedding(MODEL, PROCESSOR, DEVICE, pil_img)]. *)
  get_image_embedding : PILImage → outcome unit Tensor;
  (** [embedding.ndim] and [embedding.squeeze()]. *)
  ndim : Tensor → Z;
  squeeze : Tensor → Tensor;
  (** [np.array(pil_img)]: the pixels, height by width, in RGB order. *)
  np_array : PILImage → OutfitGenerator.ndarray;
  (** The library calls of [og.get_dominant_color_bgr] and
      [og.bgr_to_hsv]. *)
  cv2_resize :
    OutfitGenerator.ndarray → Z * Z →
    outcome OutfitGenerator.library_error OutfitGenerator.ndarray;
  kmeans_cluster_centers :
    Z → list OutfitGenerator.BGR →
    outcome OutfitGenerator.library_error (list (float * float * float));
  cv2_BGR2HSV : OutfitGenerator.BGR → OutfitGenerator.HSV;
  (** [str.lower], [str.strip] and [os.path.basename]. *)
  str_lower : string → string;
  str_strip : string → string;
  os_path_basename : string → string
}.
Arguments Image_open_convert_RGB {Tensor PILImage}.
Arguments get_image_embedding {Tensor PILImage}.
Arguments ndim {Tensor PILImage}.
Arguments squeeze {Tensor PILImage}.
Arguments np_array {Tensor PILImage}.
Arguments cv2_resize {Tensor PILImage}.
Arguments kmeans_cluster_centers {Tensor PILImage}.
Arguments cv2_BGR2HSV {Tensor PILImage}.
Arguments str_lower {Tensor PILImage}.
Arguments str_strip {Tensor PILImage}.
Arguments os_path_basename {Tensor PILImage}.

Section Ingestion.

Context {Tensor PILImage : Type}.
Variable lib : Libraries Tensor PILImage.

Definition _pil_to_bgr (pil_img : PILImage) : OutfitGenerator.ndarray :=
  let rgb := np_array lib pil_img in
  cvtColor_RGB2BGR rgb.

(** [handle_new_item]: the value returned or the exception raised, and the
    list [_ITEMS] afterwards. *)
Definition handle_new_item (image_path category : string)
    (_ITEMS : list (Item Tensor))
  : outcome ingest_error string * list (Item Tensor) :=
  let item_id := "item" +:+ pretty (length _ITEMS + 1) in
  match Image_open_convert_RGB lib image_path with
  | Raise _ => (Raise PIL_error, _ITEMS)
  | Return pil_img =>
      match get_image_embedding lib pil_img with
      | Raise _ => (Raise embedding_error, _ITEMS)
      | Return embedding =>
          let embedding :=
            if (1 <? ndim lib embedding)%Z then squeeze lib embedding
            else embedding in
          let bgr := _pil_to_bgr pil_img in
          match OutfitGenerator.get_dominant_color_bgr
                  (cv2_resize lib) (kmeans_cluster_centers lib)
                  (cv2_BGR2HSV lib) bgr
                  OutfitGenerator.default_k OutfitGenerator.default_crop_size
          with
          | Raise e => (Raise (color_error e), _ITEMS)
          | Return dom_bgr =>
              let dom_hsv :=
                OutfitGenerator.bgr_to_hsv (cv2_BGR2HSV lib) dom_bgr in
              let color_group := OutfitGenerator.categorize_color dom_hsv in
              (Return item_id,
               _ITEMS ++ [ {| id := item_id;
                              image_path := image_path;
                              filename := os_path_basename lib image_path;
                              category :=
                                str_strip lib (str_lower lib category);
                              color_group := color_group;
                              embedding := embedding |} ])
          end
      end
  end.


End Ingestion.

End WardrobeModel.

(** ** app.py *)

Module App.
Local Open Scope Z_scope.

(** [datetime.date]: construction checks the day against the month, and
    [strftime("%A")] names the weekday of the proleptic Gregorian ordinal. *)
Inductive exn : Type := ValueError.

Record date : Type := mk_date { date_year : Z; date_month : Z; date_day : Z }.

Definition is_leap (y : Z) : bool :=
  (y `mod` 4 =? 0) && (negb (y `mod` 100 =? 0) || (y `mod` 400 =? 0)).

Definition days_in_month (y m : Z) : Z :=
  if m =? 2 then (if is_leap y then 29 else 28)
  else if (m =? 4) || (m =? 6) || (m =? 9) || (m =? 11) then 30
  else 31.

Definition new_date (y m d : Z) : outcome exn date :=
  if (1 <=? y) && (y <=? 9999) && (1 <=? m) && (m <=? 12)
     && (1 <=? d) && (d <=? days_in_month y m)
  then Return (mk_date y m d)
  else Raise ValueError.

Definition days_before_year (y : Z) : Z :=
  let y := y - 1 in y * 365 + y `div` 4 - y `div` 100 + y `div` 400.

Definition days_before_month (y m : Z) : Z :=
  foldr Z.add 0 (map (days_in_month y) (seqZ 1 (m - 1))).

Definition toordinal (d : date) : Z :=
  days_before_year (date_year d)
  + days_before_month (date_year d) (date_month d) + date_day d.

Definition strftime_A (d : date) : string :=
  match Z.to_nat ((toordinal d + 6) `mod` 7) with
  | 0%nat => "Monday" | 1%nat => "Tuesday" | 2%nat => "Wednesday"
  | 3%nat => "Thursday" | 4%nat => "Friday" | 5%nat => "Saturday"
  | _ => "Sunday"
  end.

Definition cute_quotes : list string :=
  [ "Romanticize your everyday.";
    "Dress like you already made it.";
    "Soft outfit, sharp mind.";
    "You are the main character.";
    "One outfit at a time.";
    "Effortless, not careless.";
    "Cute clothes, serious goals." ].

Definition msg : string :=
  "Please upload at least 10 wardrobe pieces (tops, bottoms, jackets) to generate a full 30-day capsule âœ¨".

Record CalendarDay : Type := mk_CalendarDay {
  day_number : Z;
  weekday : string;
  quote : string;
  outfit : WardrobeModel.Outfit
}.

(** The loop of [capsule] over [enumerate(outfits)], from index [idx] on. *)
Fixpoint calendar_days_from (idx : nat) (outfits : list WardrobeModel.Outfit)
  : outcome exn (list CalendarDay) :=
  match outfits with
  | [] => Return []
  | outfit :: rest =>
      let day_num := Z.of_nat idx + 1 in
      d ← new_date 2025 12 day_num;
      let quote :=
        default ""%string (cute_quotes !! (idx `mod` length cute_quotes)%nat) in
      rest' ← calendar_days_from (S idx) rest;
      Return ({| day_number := date_day d;
                 weekday := strftime_A d;
                 quote := quote;
                 outfit := outfit |} :: rest')
  end.

Section Route.

Variable Tensor : Type.
Variable cosine_similarity : Tensor → Tensor → float.

(** The keyword arguments handed to [render_template("capsule.html", ...)]. *)
Record Rendered : Type := mk_Rendered {
  days : list CalendarDay;
  items : gmap string (WardrobeModel.Item Tensor);
  month_name : string;
  year : Z;
  message : option string
}.

Definition capsule (_ITEMS : list (WardrobeModel.Item Tensor))
  : outcome exn Rendered :=
  if (WardrobeModel.get_item_count _ITEMS <? 2)%nat then
    Return {| days := []; items := ∅; month_name := "December";
              year := 2025; message := Some msg |}
  else
    let '(outfits, items_map) :=
      WardrobeModel.generate_capsule cosine_similarity _ITEMS in
    calendar_days ← calendar_days_from 0 outfits;
    Return {| days := calendar_days; items := items_map;
              month_name := "December"; year := 2025; message := None |}.

End Route.

Arguments mk_Rendered {Tensor}.
Arguments days {Tensor}.
Arguments items {Tensor}.
Arguments month_name {Tensor}.
Arguments year {Tensor}.
Arguments message {Tensor}.
Arguments capsule {Tensor}.

(** One uploaded file of [request.files] (its name and its bytes), and the
    two fields [upload_item] reads from the request. *)
Record FileStorage : Type := mk_FileStorage {
  file_filename : string;
  file_stream : list Byte.byte
}.

Record Request : Type := mk_Request {
  files_item_image : option FileStorage;
  form_category : option string
}.

(** What [upload_item] can end in: the failure of [image_file.save] or of
    [wardrobe_model.handle_new_item]. *)
Inductive upload_error : Type :=
  | save_error
  | ingest_failed (e : WardrobeModel.ingest_error).

(** [redirect(url_for(endpoint))]. *)
Inductive Response : Type := redirect (endpoint : string).

Section Upload.

Variable Tensor : Type.
(** The file system, and [image_file.save(save_path)] on it: whether it
    returns or raises, and the file system it leaves. *)
Variable FileSystem : Type.
Variable FileStorage_save :
  FileStorage → string → FileSystem → outcome unit unit * FileSystem.
(** [UPLOAD_FOLDER] and [os.path.join]. *)
Variable UPLOAD_FOLDER : string.
Variable os_path_join : string → string → string.
(** [wardrobe_model.handle_new_item] with its library calls fixed. *)
Variable handle_new_item :
  string → string → list (WardrobeModel.Item Tensor) →
  outcome WardrobeModel.ingest_error string * list (WardrobeModel.Item Tensor).

(** [upload_item]: the response or the exception, and the file system and
    the item list afterwards. *)
Definition upload_item (request : Request)
    (fs : FileSystem) (_ITEMS : list (WardrobeModel.Item Tensor))
  : outcome upload_error Response
    * (FileSystem * list (WardrobeModel.Item Tensor)) :=
  let image_file := files_item_image request in
  let category := form_category request in
  match image_file, category with
  | Some image_file, Some category =>
      if bool_decide (file_filename image_file = "")
         || bool_decide (category = "")
      then (Return (redirect "home"), (fs, _ITEMS))
      else
        let save_path := os_path_join UPLOAD_FOLDER (file_filename image_file) in
        match FileStorage_save image_file save_path fs with
        | (Raise _, fs') => (Raise save_error, (fs', _ITEMS))
        | (Return _, fs') =>
            match handle_new_item save_path category _ITEMS with
            | (Raise e, _ITEMS') => (Raise (ingest_failed e), (fs', _ITEMS'))
            | (Return _, _ITEMS') => (Return (redirect "home"), (fs', _ITEMS'))
            end
        end
  | _, _ => (Return (redirect "home"), (fs, _ITEMS))
  end.

End Upload.

Arguments upload_item {Tensor FileSystem}.

End App.

(** ** The classifier as the specification words it *)

Module Spec.
Local Open Scope Z_scope.

Inductive color_class : Type := warm | cool | neutral.

Definition class_name (c : color_class) : string :=
  match c with
  | warm => "warm"
  | cool => "cool"
  | neutral => "neutral"
  end.

(** A rule: a condition on hue, saturation and value, and the class it
    gives. *)
Record rule : Type := mk_rule {
  applies : Z → Z → Z → bool;
  verdict : color_class
}.

(** [x] in the closed interval [[lo, hi]], and in the half-open [(lo, hi]]. *)
Definition closed (lo hi x : Z) : bool := bool_decide (lo ≤ x ≤ hi).
Definition left_open (lo hi x : Z) : bool := bool_decide (lo < x ≤ hi).

(** The five rules of section 4.2, in the order in which they are tried. *)
Definition rules : list rule :=
  [ mk_rule (λ _ s v, bool_decide (s < 15 ∨ v < 20)) neutral;
    mk_rule (λ h s _, (closed 0 15 h || closed 160 179 h)
                      && bool_decide (s > 40)) warm;
    mk_rule (λ h _ _, left_open 15 45 h) warm;
    mk_rule (λ h _ _, left_open 45 120 h) cool;
    mk_rule (λ h _ _, left_open 120 179 h) cool ].

(** First match wins; [None] when no rule applies. *)
Fixpoint first_match (rs : list rule) (h s v : Z) : option color_class :=
  match rs with
  | [] => None
  | r :: rs' => if applies r h s v then Some (verdict r)
                else first_match rs' h s v
  end.

(** The rule set with its trailing "otherwise neutral". *)
Definition classify (h s v : Z) : color_class :=
  default neutral (first_match rules h s v).

End Spec.

(** ** Concrete wardrobes and images used to exercise the statements *)

Module Examples.
Import WardrobeModel.

Definition cos_09 (e1 e2 : unit) : float := 0.9%float.

Definition top_warm : Item unit :=
  mk_Item "item1" "uploads/shirt.jpg" "shirt.jpg" "top" "warm" tt.
Definition bottom_neutral : Item unit :=
  mk_Item "item2" "uploads/jeans.jpg" "jeans.jpg" "bottom" "neutral" tt.
Definition jacket_cool : Item unit :=
  mk_Item "item3" "uploads/coat.jpg" "coat.jpg" "jacket" "cool" tt.
Definition scarf_cool : Item unit :=
  mk_Item "item4" "uploads/scarf.jpg" "scarf.jpg" "scarf" "cool" tt.

Definition two_piece_store : list (Item unit) := [top_warm; bottom_neutral].
Definition three_piece_store : list (Item unit) :=
  [top_warm; bottom_neutral; jacket_cool].
Definition no_bottom_store : list (Item unit) :=
  [top_warm; jacket_cool; scarf_cool].

(** A one-pixel black image: its 0.6 centre crop has no rows. *)
Definition one_pixel : OutfitGenerator.ndarray :=
  OutfitGenerator.mk_ndarray 1 1 (λ _ _, (0, 0, 0)%Z).

(** A wardrobe with 4 tops, 4 bottoms and a jacket: 32 combos. *)
Definition garment (n : nat) (cat group : string) : Item unit :=
  mk_Item ("item" +:+ pretty n) "uploads/g.jpg" "g.jpg" cat group tt.

Definition large_store : list (Item unit) :=
  [ garment 1 "top" "warm"; garment 2 "top" "cool";
    garment 3 "top" "neutral"; garment 4 "top" "warm";
    garment 5 "bottom" "neutral"; garment 6 "bottom" "cool";
    garment 7 "bottom" "warm"; garment 8 "bottom" "cool";
    garment 9 "jacket" "neutral" ].

(** A 10 x 5 image of one colour. *)
Definition plain_image : OutfitGenerator.ndarray :=
  OutfitGenerator.mk_ndarray 10 5 (λ _ _, (30, 60, 90)%Z).

(** Stand-ins for the library calls: a resize that refuses an empty image
    and otherwise returns its argument, a clustering with two fixed centres,
    a colour conversion that keeps the middle channel as saturation, a file
    system that records the saved paths. *)
Definition stub_resize (a : OutfitGenerator.ndarray) (size : Z * Z)
  : outcome OutfitGenerator.library_error OutfitGenerator.ndarray :=
  if (OutfitGenerator.pixel_count a =? 0)%Z
  then Raise OutfitGenerator.cv2_error else Return a.

Definition stub_kmeans (k : Z) (pixels : list OutfitGenerator.BGR)
  : outcome OutfitGenerator.library_error (list (float * float * float)) :=
  Return [ (10.0, 20.0, 30.0)%float; (200.0, 90.5, 7.0)%float ].

Definition stub_BGR2HSV (bgr : OutfitGenerator.BGR) : OutfitGenerator.HSV :=
  let '(b, g, r) := bgr in ((b `mod` 180)%Z, g, r).

Definition stub_lib : Libraries unit unit :=
  {| Image_open_convert_RGB := λ _, Return tt;
     get_image_embedding := λ _, Return tt;
     ndim := λ _, 1%Z;
     squeeze := λ e, e;
     np_array := λ _, plain_image;
     cv2_resize := stub_resize;
     kmeans_cluster_centers := stub_kmeans;
     cv2_BGR2HSV := stub_BGR2HSV;
     str_lower := λ s, s;
     str_strip := λ s, s;
     os_path_basename := λ s, s |}.

Definition stub_save (f : App.FileStorage) (path : string) (fs : list string)
  : outcome unit unit * list string :=
  (Return tt, path :: fs).

Definition stub_join (a b : string) : string := a +:+ "/" +:+ b.




End Examples.

(** ** Cyclic repetition *)

(** [l] repeats [sel] cyclically: entry [i] of [l] is entry [i mod n] of
    [sel], [n] the length of [sel]. *)
Definition repeats (sel l : list (list string)) : Prop :=
  ∀ i, i < length l → l !! i = sel !! (i mod length sel).

Import OutfitGenerator WardrobeModel.

(** ** Vocabulary of the further statements *)

(** The three values [categorize_color] returns. *)
Definition is_color_group (g : string) : Prop :=
  g = "warm" ∨ g = "cool" ∨ g = "neutral".

(** [x == x] in Python: [x] is not a NaN. *)
Definition not_nan (x : float) : bool := (x =? x)%float.

(** Neither of two scores is below the other. *)
Definition tied (x y : float) : Prop :=
  (x <? y)%float = false ∧ (y <? x)%float = false.

(** No entry of [l] has a key below the key of a later entry. *)
Definition descending {A} (l : list (float * A)) : Prop :=
  ∀ i j x y, i < j → l !! i = Some x → l !! j = Some y →
             (x.1 <? y.1)%float = false.

(** Line 213 of [_build_30_outfits]: the total of one combo. *)
Definition total_score {Tensor} (cosine_similarity : Tensor → Tensor → float)
    (combo : Combo Tensor) : float :=
  (w_color * _outfit_color_score (groups combo)
   + w_style * _outfit_style_score cosine_similarity (embeds combo))%float.

(** The names [strftime("%A")] gives, Monday first. *)
Definition weekday_names : list string :=
  [ "Monday"; "Tuesday"; "Wednesday"; "Thursday"; "Friday"; "Saturday";
    "Sunday" ].

(** The crop length [int(n * 0.6)] is [(6 * n) // 10] for the [count] sizes
    from [n] on: a check by evaluation. *)
Fixpoint default_crop_lengths_ok (count : nat) (n : Z) : bool :=
  match count with
  | O => true
  | S count' =>
      (py_int (py_float n * default_crop_size) =? (6 * n) `div` 10)%Z
      && default_crop_lengths_ok count' (n + 1)%Z
  end.

(** ** The colour classifier *)

Section Classifier.
Local Open Scope Z_scope.

Ltac split_tests :=
  repeat (match goal with
          | |- context [Z.ltb ?a ?b] => destruct (Z.ltb_spec a b)
          | |- context [Z.leb ?a ?b] => destruct (Z.leb_spec a b)
          | |- context [bool_decide ?P] => destruct (bool_decide_reflect P)
          end; simpl; try lia).

Lemma categorize_color_branch_result (hsv : HSV) :
  categorize_color hsv = branch_result (categorize_color_branch hsv).
Proof.
  destruct hsv as [[h s] v]. unfold categorize_color, categorize_color_branch.
  split_tests; reflexivity.
Qed.

(** The code's chain of tests and the specification's rule list pick the
    same rule, or both pick none. *)
Lemma categorize_color_branch_first_match (h s v : Z) :
  match categorize_color_branch (h, s, v) with
  | Fallback => Spec.first_match Spec.rules h s v = None
  | b => Spec.class_name <$> Spec.first_match Spec.rules h s v
         = Some (branch_result b)
  end.
Proof.
  unfold categorize_color_branch, Spec.rules, Spec.first_match,
    Spec.closed, Spec.left_open; simpl.
  split_tests; first [ reflexivity | lia ].
Qed.

(** C4. [categorize_color] is the ordered first-match rule set of section
    4.2: on every hue, saturation and value (so in particular on the OpenCV
    scales) it returns the class the rule list gives, and the four literal
    cases of section 8 evaluate as stated. *)
Theorem categorize_color_refines_rule_set :
  (∀ h s v : Z,
     categorize_color (h, s, v) = Spec.class_name (Spec.classify h s v))
  ∧ categorize_color (0, 50, 100) = "warm"
  ∧ categorize_color (90, 50, 100) = "cool"
  ∧ categorize_color (50, 10, 100) = "neutral"
  ∧ categorize_color (0, 255, 5) = "neutral".
Proof.
  split; [| repeat split; reflexivity ].
  intros h s v. rewrite categorize_color_branch_result.
  pose proof (categorize_color_branch_first_match h s v) as H.
  unfold Spec.classify.
  destruct (categorize_color_branch (h, s, v));
    destruct (Spec.first_match Spec.rules h s v) as [c|];
    simpl in *; try congruence.
Qed.

(** The fallback of [categorize_color] is taken exactly on the muted reds of
    the low hue band. *)
Lemma fallback_iff (h s v : Z) :
  0 ≤ h ≤ 179 → 0 ≤ s ≤ 255 → 0 ≤ v ≤ 255 →
  categorize_color_branch (h, s, v) = Fallback
  ↔ h ≤ 15 ∧ 15 ≤ s ≤ 40 ∧ 20 ≤ v.
Proof.
  intros Hh Hs Hv. unfold categorize_color_branch.
  split_tests; split; intros; first [ discriminate | lia | reflexivity ].
Qed.

(** C5, as the code has it.  On the OpenCV scales the trailing
    [return "neutral"] is reached exactly when the hue is in [[0, 15]], the
    saturation in [[15, 40]] and the value at least 20; on every other input
    of the scale one of the five rules matches first. *)
Theorem fallback_reached_exactly_on_muted_low_reds (h s v : Z) :
  0 ≤ h ≤ 179 → 0 ≤ s ≤ 255 → 0 ≤ v ≤ 255 →
  (categorize_color_branch (h, s, v) = Fallback
   ↔ h ≤ 15 ∧ 15 ≤ s ≤ 40 ∧ 20 ≤ v)
  ∧ (Spec.first_match Spec.rules h s v = None
     ↔ h ≤ 15 ∧ 15 ≤ s ≤ 40 ∧ 20 ≤ v).
Proof.
  intros Hh Hs Hv.
  pose proof (fallback_iff h s v Hh Hs Hv) as Hf.
  split; [exact Hf|]. rewrite <- Hf.
  pose proof (categorize_color_branch_first_match h s v) as H.
  destruct (categorize_color_branch (h, s, v)); split; intros E;
    try discriminate; try reflexivity; try exact H;
    rewrite E in H; discriminate.
Qed.

Lemma fallback_reached_exactly_on_muted_low_reds_witness :
  (categorize_color_branch (0, 30, 100) = Fallback
   ↔ 0 ≤ 15 ∧ 15 ≤ 30 ≤ 40 ∧ 20 ≤ 100)
  ∧ (Spec.first_match Spec.rules 0 30 100 = None
     ↔ 0 ≤ 15 ∧ 15 ≤ 30 ≤ 40 ∧ 20 ≤ 100).
Proof.
  apply (fallback_reached_exactly_on_muted_low_reds 0 30 100); lia.
Defined.

(** C5, as stated, fails: hue 0, saturation 30, value 100 lies on the OpenCV
    scales, none of the five rules matches it, and the classifier returns
    through its fallback. *)
Lemma fallback_is_reachable :
  (0 ≤ 0 ≤ 179 ∧ 0 ≤ 30 ≤ 255 ∧ 0 ≤ 100 ≤ 255)
  ∧ Spec.first_match Spec.rules 0 30 100 = None
  ∧ categorize_color_branch (0, 30, 100) = Fallback
  ∧ categorize_color (0, 30, 100) = "neutral".
Proof. repeat split; (lia || reflexivity). Qed.

End Classifier.

(** ** Colour compatibility of a pair *)

Section Scores.

(** C6. The pair score is 3.0 as soon as one class is "neutral", 2.5 on two
    equal classes other than "neutral", 1.0 on two different classes other
    than "neutral", and it is symmetric.  The classes are the strings the
    code compares, so the statement covers every string. *)
Theorem pair_color_score_table :
  (∀ g1 g2, g1 = "neutral" ∨ g2 = "neutral" →
            _pair_color_score g1 g2 = 3.0%float)
  ∧ (∀ g, g ≠ "neutral" → _pair_color_score g g = 2.5%float)
  ∧ (∀ g1 g2, g1 ≠ "neutral" → g2 ≠ "neutral" → g1 ≠ g2 →
              _pair_color_score g1 g2 = 1.0%float)
  ∧ (∀ a b, _pair_color_score a b = _pair_color_score b a).
Proof.
  unfold _pair_color_score. repeat split.
  - intros g1 g2 [-> | ->]; [reflexivity|].
    by rewrite String.eqb_refl, orb_true_r.
  - intros g Hg. apply String.eqb_neq in Hg. by rewrite Hg, String.eqb_refl.
  - intros g1 g2 H1 H2 H12.
    apply String.eqb_neq in H1, H2, H12. by rewrite H1, H2, H12.
  - intros a b. by rewrite (orb_comm (String.eqb a _)), (String.eqb_sym a b).
Qed.

End Scores.

(** ** Colour extraction *)

Section Extraction.
Local Open Scope Z_scope.

Variable cv2_resize : ndarray → Z * Z → outcome library_error ndarray.
Variable kmeans_cluster_centers :
  Z → list BGR → outcome library_error (list (float * float * float)).
Variable cv2_BGR2HSV : BGR → HSV.

#[local] Arguments astype_uint8 : simpl never.

(** [np.argmax] returns an index of its argument. *)
Lemma argmax_from_bound (l : list Z) (best_i i : nat) (best : Z) :
  (best_i < i)%nat → (argmax_from best_i best i l < i + length l)%nat.
Proof.
  revert best_i best i. induction l as [|x r IH]; intros best_i best i Hlt.
  - simpl. lia.
  - simpl. destruct (best <? x).
    + specialize (IH i x (S i)). lia.
    + specialize (IH best_i best (S i)). lia.
Qed.

Lemma np_argmax_in_range (l : list Z) (idx : nat) :
  np_argmax l = Return idx → (idx < length l)%nat.
Proof.
  destruct l as [|x r]; [discriminate|].
  intros [= <-]. pose proof (argmax_from_bound r 0 1 x). simpl. lia.
Qed.

(** What an extraction can end in, read off the two library calls. *)
Lemma get_dominant_color_bgr_cases
    (image_bgr : ndarray) (k : Z) (crop_size : float) :
  match get_dominant_color_bgr cv2_resize kmeans_cluster_centers cv2_BGR2HSV
          image_bgr k crop_size with
  | Raise ColorExtractionError => False
  | Raise (LibraryError e) =>
      cv2_resize (center_crop image_bgr crop_size) (150, 150) = Raise e
      ∨ ∃ img_small,
          cv2_resize (center_crop image_bgr crop_size) (150, 150)
          = Return img_small
          ∧ (kmeans_cluster_centers k (reshape_pixels img_small) = Raise e
             ∨ (kmeans_cluster_centers k (reshape_pixels img_small)
                = Return []
                ∧ e = numpy_ValueError))
  | Return bgr =>
      ∃ img_small centers_f,
        cv2_resize (center_crop image_bgr crop_size) (150, 150)
        = Return img_small
        ∧ kmeans_cluster_centers k (reshape_pixels img_small)
          = Return centers_f
        ∧ bgr ∈ astype_uint8 centers_f
  end.
Proof.
  unfold get_dominant_color_bgr.
  destruct (cv2_resize _ _) as [img_small|e]; simpl; [|by left].
  destruct (kmeans_cluster_centers _ _) as [centers_f|e] eqn:Hk; simpl;
    [|right; eauto].
  destruct (np_argmax _) as [idx|e] eqn:Hidx; simpl.
  - apply np_argmax_in_range in Hidx. rewrite !length_map in Hidx.
    destruct (_ !! idx) as [[[b g] r]|] eqn:Hb.
    + exists img_small, centers_f. split; [reflexivity|]. split; [exact Hk|].
      by eapply list_elem_of_lookup_2.
    + apply lookup_ge_None_1 in Hb.
      destruct (Nat.lt_irrefl _ (Nat.lt_le_trans _ _ _ Hidx Hb)).
  - right. exists img_small. split; [reflexivity|]. right.
    destruct centers_f; [|discriminate]. injection Hidx as <-. done.
Qed.

(** C8, as the code has it.  The extractor has no error kind of its own:
    it never ends in [ColorExtractionError]; the cropped image, empty or not,
    is handed to the resize call and the pixels with the cluster count to the
    clustering call, and an error of either call comes out unchanged; when
    both calls return and there is at least one centre, the result is one of
    the centres cast to 8 bits, so no default colour is substituted. *)
Theorem color_extraction_propagates_library_errors
    (image_bgr : ndarray) (k : Z) (crop_size : float) :
  get_dominant_color_bgr cv2_resize kmeans_cluster_centers cv2_BGR2HSV
    image_bgr k crop_size ≠ Raise ColorExtractionError
  ∧ (∀ e,
       cv2_resize (center_crop image_bgr crop_size) (150, 150) = Raise e →
       get_dominant_color_bgr cv2_resize kmeans_cluster_centers cv2_BGR2HSV
         image_bgr k crop_size = Raise (LibraryError e))
  ∧ (∀ img_small e,
       cv2_resize (center_crop image_bgr crop_size) (150, 150)
       = Return img_small →
       kmeans_cluster_centers k (reshape_pixels img_small) = Raise e →
       get_dominant_color_bgr cv2_resize kmeans_cluster_centers cv2_BGR2HSV
         image_bgr k crop_size = Raise (LibraryError e))
  ∧ (∀ img_small centers_f,
       cv2_resize (center_crop image_bgr crop_size) (150, 150)
       = Return img_small →
       kmeans_cluster_centers k (reshape_pixels img_small)
       = Return centers_f →
       centers_f ≠ [] →
       ∃ bgr,
         get_dominant_color_bgr cv2_resize kmeans_cluster_centers cv2_BGR2HSV
           image_bgr k crop_size = Return bgr
         ∧ bgr ∈ astype_uint8 centers_f).
Proof.
  pose proof (get_dominant_color_bgr_cases image_bgr k crop_size) as Hc.
  split; [|split; [|split]].
  - intros E. rewrite E in Hc. exact Hc.
  - intros e He. unfold get_dominant_color_bgr. by rewrite He.
  - intros img_small e Hr Hk. unfold get_dominant_color_bgr.
    rewrite Hr. simpl. by rewrite Hk.
  - intros img_small centers_f Hr Hk Hne.
    destruct (get_dominant_color_bgr _ _ _ _ _ _) as [bgr|[|e]]; [|done|].
    + destruct Hc as (s' & c' & Hr' & Hk' & Hin).
      exists bgr. split; [reflexivity|]. congruence.
    + exfalso. rewrite Hr in Hc.
      destruct Hc as [|(s' & [= <-] & [Hk'|[Hk' _]])]; congruence.
Qed.

End Extraction.

(** ** The combinator, the ranking and the capsule *)

Section Padding.
Implicit Types (sel best : list (list string)).

(** One pass of the loop keeps the list a cyclic repetition, as long as its
    length is a multiple of the length of the selection. *)
Lemma repeats_self sel : repeats sel sel.
Proof. intros i Hi. by rewrite Nat.mod_small. Qed.

Lemma repeats_extend sel best n :
  0 < length sel → repeats sel best →
  Nat.divide (length sel) (length best) →
  repeats sel (best ++ take n best).
Proof.
  intros Hsel Hrep [q Hq] i Hi.
  rewrite length_app, length_take in Hi.
  destruct (decide (i < length best)) as [Hlt|Hge].
  - rewrite lookup_app_l by assumption. by apply Hrep.
  - rewrite lookup_app_r by lia.
    rewrite lookup_take_lt by lia. rewrite Hrep by lia. f_equal.
    replace i with ((i - length best) + q * length sel) at 2 by lia.
    rewrite Nat.Div0.mod_add. reflexivity.
Qed.

(** The loop invariant, by induction along the loop: the list repeats the
    selection, and below 31 its length is a multiple of the selection's.  At
    the exit the list has at least 31 entries. *)
Lemma extend_to_31_repeats sel best :
  0 < length sel → length sel ≤ length best → repeats sel best →
  (length best < 31 → Nat.divide (length sel) (length best)) →
  repeats sel (extend_to_31 best) ∧ 31 ≤ length (extend_to_31 best).
Proof.
  intros Hsel. funelim (extend_to_31 best); intros Hle Hrep Hdiv.
  - destruct a as [Hlt Hpos]. apply H.
    + assumption.
    + rewrite length_app. lia.
    + apply repeats_extend; auto.
    + rewrite length_app, length_take. intros H31.
      destruct (Hdiv Hlt) as [q Hq]. exists (2 * q). lia.
  - split; [assumption|]. lia.
Qed.

Lemma extend_to_31_lookup sel i :
  0 < length sel → i < 31 →
  take 31 (extend_to_31 sel) !! i = sel !! (i mod length sel).
Proof.
  intros Hsel Hi.
  destruct (extend_to_31_repeats sel sel Hsel (le_n _) (repeats_self sel))
    as [Hrep Hlen].
  - intros _. exists 1. lia.
  - rewrite lookup_take_lt by assumption. apply Hrep. lia.
Qed.

Lemma length_extend_to_31 best :
  0 < length best → length (take 31 (extend_to_31 best)) = 31.
Proof.
  intros Hpos.
  destruct (extend_to_31_repeats best best Hpos (le_n _) (repeats_self best))
    as [_ Hlen].
  - intros _. exists 1. lia.
  - rewrite length_take. lia.
Qed.

(** Sorting keeps the number of entries. *)
Lemma length_insert_desc {A} (x : float * A) l :
  length (insert_desc x l) = S (length l).
Proof.
  induction l as [|y r IH]; [reflexivity|].
  simpl. destruct (_ <? _)%float; simpl; by rewrite ?IH.
Qed.

Lemma length_sort_desc {A} (l : list (float * A)) :
  length (sort_desc l) = length l.
Proof.
  induction l as [|x r IH]; [reflexivity|].
  simpl. by rewrite length_insert_desc, IH.
Qed.

End Padding.

Section Calendar.

(** Every index of a list of at most 31 outfits is a day of December 2025,
    so the calendar loop of the route raises no [ValueError]. *)
Lemma new_date_december (idx : nat) :
  idx < 31 →
  App.new_date 2025 12 (Z.of_nat idx + 1)
  = Return (App.mk_date 2025 12 (Z.of_nat idx + 1)).
Proof.
  intros Hi. unfold App.new_date.
  change (App.days_in_month 2025 12) with 31%Z.
  cbn [andb Z.leb Z.compare Pos.compare Pos.compare_cont].
  destruct (Z.leb_spec 1 (Z.of_nat idx + 1)); [|lia].
  destruct (Z.leb_spec (Z.of_nat idx + 1) 31); [|lia]. reflexivity.
Qed.

Lemma calendar_days_from_returns (outfits : list Outfit) (idx : nat) :
  idx + length outfits ≤ 31 →
  ∃ calendar_days,
    App.calendar_days_from idx outfits = Return calendar_days
    ∧ length calendar_days = length outfits.
Proof.
  revert idx. induction outfits as [|outfit rest IH]; intros idx Hle.
  - exists []. done.
  - simpl in Hle. cbn [App.calendar_days_from].
    rewrite new_date_december by lia. cbn [mbind outcome_bind].
    destruct (IH (S idx)) as (rest' & -> & Hlen); [lia|].
    eexists. split; [reflexivity|]. simpl. by rewrite Hlen.
Qed.

End Calendar.

Section Capsule.
Context {Tensor : Type}.
Variable cosine_similarity : Tensor → Tensor → float.
Implicit Types (items store : list (Item Tensor)).

(** The pair loops visit [n * (n - 1) / 2] pairs. *)
Lemma length_index_pairs {A} (l : list A) :
  2 * length (index_pairs l) = length l * (length l - 1).
Proof.
  induction l as [|x r IH]; [reflexivity|].
  cbn [index_pairs length]. rewrite length_app, length_map. nia.
Qed.

Lemma length_flat_map_const {A B} (f : A → list B) (c : nat) (l : list A) :
  (∀ x, length (f x) = c) → length (flat_map f l) = length l * c.
Proof.
  intros Hf. induction l as [|x r IH]; [reflexivity|].
  cbn [flat_map length]. rewrite length_app, Hf, IH. lia.
Qed.

(** The two branches of the combinator. *)
Lemma build_combos_structured items :
  0 < length (tops items) → 0 < length (bottoms items) →
  build_combos items =
    flat_map (λ t,
      flat_map (λ b,
        _make_combo [t; b] :: map (λ j, _make_combo [t; b; j]) (jackets items))
        (bottoms items))
      (tops items).
Proof.
  intros Ht Hb. unfold build_combos.
  destruct (tops items); [simpl in Ht; lia|].
  destruct (bottoms items); [simpl in Hb; lia|]. reflexivity.
Qed.

Lemma build_combos_fallback items :
  ¬ (0 < length (tops items) ∧ 0 < length (bottoms items)) →
  build_combos items = map (λ '(a, b), _make_combo [a; b]) (index_pairs items).
Proof.
  intros H. unfold build_combos.
  destruct (tops items); [reflexivity|].
  destruct (bottoms items); [reflexivity|]. simpl in H. lia.
Qed.


Lemma length_build_combos_structured items :
  0 < length (tops items) → 0 < length (bottoms items) →
  length (build_combos items)
  = length (tops items) * length (bottoms items) * (1 + length (jackets items)).
Proof.
  intros Ht Hb. rewrite build_combos_structured by assumption.
  rewrite (length_flat_map_const _
             (length (bottoms items) * (1 + length (jackets items)))).
  - lia.
  - intros t. apply length_flat_map_const.
    intros b. cbn [length]. by rewrite length_map.
Qed.

Lemma length_build_combos_fallback items :
  ¬ (0 < length (tops items) ∧ 0 < length (bottoms items)) →
  length (build_combos items) = length items * (length items - 1) / 2.
Proof.
  intros H. rewrite build_combos_fallback by assumption.
  rewrite length_map, <- length_index_pairs.
  by rewrite Nat.mul_comm, Nat.div_mul.
Qed.

Lemma build_combos_fallback_pairs items :
  ¬ (0 < length (tops items) ∧ 0 < length (bottoms items)) →
  Forall (λ c, length (ids c) = 2) (build_combos items).
Proof.
  intros H. rewrite build_combos_fallback by assumption.
  apply Forall_forall. intros c Hc.
  apply list_elem_of_In, in_map_iff in Hc.
  destruct Hc as ([a b] & <- & _). reflexivity.
Qed.

(** Two items are enough for a combo, whatever their categories. *)
Lemma build_combos_nonempty items :
  2 ≤ length items → build_combos items ≠ [].
Proof.
  intros HN Hnil. apply (f_equal length) in Hnil. simpl in Hnil.
  destruct (decide (0 < length (tops items) ∧ 0 < length (bottoms items)))
    as [[Ht Hb]|Hno].
  - rewrite length_build_combos_structured in Hnil by assumption. nia.
  - rewrite build_combos_fallback, length_map in Hnil by assumption.
    pose proof (length_index_pairs items). nia.
Qed.

Lemma build_30_outfits_small items :
  length items < 2 →
  build_combos items = []
  ∧ _build_30_outfits cosine_similarity items = map (λ it, [id it]) items.
Proof.
  intros HN.
  assert (build_combos items = []) as Hc.
  { destruct items as [|a [|b r]]; [reflexivity | | simpl in HN; lia].
    unfold build_combos, tops, bottoms. rewrite !filter_cons, !filter_nil.
    repeat case_decide; try reflexivity. congruence. }
  split; [exact Hc|]. unfold _build_30_outfits. rewrite Hc.
  apply take_ge. rewrite length_map. lia.
Qed.

(** C3. With [T] tops, [B] bottoms, [J] jackets and [N] items: the
    combinator builds [T * B * (1 + J)] combos when there is a top and a
    bottom; otherwise [N * (N - 1) / 2] combos of two items each when
    [N >= 2]; otherwise no combo, and the outfits are the [N] single items. *)
Theorem combinator_cardinality items :
  (0 < length (tops items) → 0 < length (bottoms items) →
   length (build_combos items)
   = length (tops items) * length (bottoms items)
     * (1 + length (jackets items)))
  ∧ (¬ (0 < length (tops items) ∧ 0 < length (bottoms items)) →
     2 ≤ length items →
     length (build_combos items) = length items * (length items - 1) / 2
     ∧ Forall (λ c, length (ids c) = 2) (build_combos items))
  ∧ (¬ (0 < length (tops items) ∧ 0 < length (bottoms items)) →
     length items < 2 →
     build_combos items = []
     ∧ _build_30_outfits cosine_similarity items = map (λ it, [id it]) items
     ∧ length (_build_30_outfits cosine_similarity items) = length items).
Proof.
  split; [|split].
  - apply length_build_combos_structured.
  - intros H _. split.
    + by apply length_build_combos_fallback.
    + by apply build_combos_fallback_pairs.
  - intros _ HN. destruct (build_30_outfits_small items HN) as [Hc Hb].
    rewrite Hb, length_map. done.
Qed.
(** The ranked selection, the outfit list and the day list. *)
Lemma length_top_ranked (combos : list (Combo Tensor)) :
  length (top_ranked cosine_similarity combos) = 31 `min` length combos.
Proof.
  unfold top_ranked, score_combos.
  rewrite length_map, length_take, length_sort_desc, length_map. lia.
Qed.

Lemma build_30_outfits_lookup store i :
  build_combos store ≠ [] → i < 31 →
  _build_30_outfits cosine_similarity store !! i
  = top_ranked cosine_similarity (build_combos store)
      !! (i mod length (top_ranked cosine_similarity (build_combos store))).
Proof.
  intros Hne Hi. unfold _build_30_outfits.
  destruct (build_combos store) as [|c cs] eqn:Hc; [done|].
  apply extend_to_31_lookup; [|assumption].
  rewrite length_top_ranked. simpl. lia.
Qed.

Lemma length_build_30_outfits store :
  build_combos store ≠ [] →
  length (_build_30_outfits cosine_similarity store) = 31.
Proof.
  intros Hne. unfold _build_30_outfits.
  destruct (build_combos store) as [|c cs] eqn:Hc; [done|].
  apply length_extend_to_31. rewrite length_top_ranked. simpl. lia.
Qed.

Lemma generate_capsule_outfits store :
  (generate_capsule cosine_similarity store).1
  = imap (λ i item_ids, {| day := S i; items := item_ids |})
         (_build_30_outfits cosine_similarity store).
Proof. destruct store; reflexivity. Qed.

(** C1. A store of at least two items for which the combinator builds at
    least one combo gets a capsule of exactly 31 days. *)
Theorem capsule_has_target_length store :
  2 ≤ get_item_count store → build_combos store ≠ [] →
  length (generate_capsule cosine_similarity store).1 = 31.
Proof.
  intros _ Hne.
  by rewrite generate_capsule_outfits, length_imap, length_build_30_outfits.
Qed.

(** C2. With at least one and fewer than 31 combos, [n] of them, all [n]
    are selected, and day [i + 1] of the capsule, for every [i < 31], carries
    the item ids of entry [i mod n] of the ranked selection: the capsule is
    the selection repeated cyclically. *)
Theorem capsule_repeats_selection_cyclically store i :
  build_combos store ≠ [] → length (build_combos store) < 31 → i < 31 →
  length (top_ranked cosine_similarity (build_combos store))
  = length (build_combos store)
  ∧ ∃ item_ids,
      top_ranked cosine_similarity (build_combos store)
        !! (i mod length (build_combos store)) = Some item_ids
      ∧ (generate_capsule cosine_similarity store).1 !! i
        = Some {| day := S i; items := item_ids |}.
Proof.
  intros Hne Hfew Hi.
  assert (length (top_ranked cosine_similarity (build_combos store))
          = length (build_combos store)) as Hn
    by (rewrite length_top_ranked; lia).
  split; [exact Hn|].
  assert (0 < length (build_combos store)) as Hpos
    by (destruct (build_combos store); [done | simpl; lia]).
  destruct (lookup_lt_is_Some_2
              (top_ranked cosine_similarity (build_combos store))
              (i mod length (build_combos store))) as [item_ids Hsel].
  { rewrite Hn. apply Nat.mod_upper_bound. lia. }
  exists item_ids. split; [exact Hsel|].
  rewrite generate_capsule_outfits, list_lookup_imap.
  rewrite build_30_outfits_lookup, Hn, Hsel by assumption. reflexivity.
Qed.

(** C10. Called on a store of one item, [generate_capsule] returns one
    day, day 1 with the id of that item, and the map holding that item: the
    single-item fallback returns before the list is extended to 31. *)
Theorem single_item_capsule (it : Item Tensor) :
  generate_capsule cosine_similarity [it]
  = ([ {| day := 1; items := [id it] |} ], {[ id it := it ]}).
Proof.
  unfold generate_capsule.
  assert (_build_30_outfits cosine_similarity [it] = [[id it]]) as ->;
    [|reflexivity].
  unfold _build_30_outfits, build_combos, tops, bottoms.
  rewrite !filter_cons, !filter_nil.
  repeat case_decide; try reflexivity. congruence.
Qed.

Lemma build_combos_one_top_one_bottom (t b : Item Tensor) store :
  tops store = [t] → bottoms store = [b] → jackets store = [] →
  build_combos store = [_make_combo [t; b]].
Proof. intros Ht Hb Hj. unfold build_combos. by rewrite Ht, Hb, Hj. Qed.

(** A wardrobe whose only top is of class "warm" and whose only bottom is
    of class "neutral", without jacket: the combinator builds one combo, of
    these two items, its colour score is 3.0, and its total is
    [0.6 * 3.0 + 0.4 * s], with [s] the style score of the pair, whatever
    the cosine similarity of the two embeddings is. *)
Lemma two_piece_wardrobe_scores (t b : Item Tensor) store :
  tops store = [t] → bottoms store = [b] → jackets store = [] →
  color_group t = "warm" → color_group b = "neutral" →
  build_combos store = [_make_combo [t; b]]
  ∧ _outfit_color_score (groups (_make_combo [t; b])) = 3.0%float
  ∧ score_combos cosine_similarity (build_combos store)
    = [((0.6 * 3.0
         + 0.4 * _outfit_style_score cosine_similarity
                   (embeds (_make_combo [t; b])))%float,
        [id t; id b])].
Proof.
  intros Ht Hb Hj Hgt Hgb.
  rewrite (build_combos_one_top_one_bottom t b store Ht Hb Hj).
  assert (_outfit_color_score (groups (_make_combo [t; b])) = 3.0%float) as Hc.
  { simpl. rewrite Hgt, Hgb. reflexivity. }
  split; [reflexivity|]. split; [exact Hc|].
  unfold score_combos. cbn [map]. rewrite Hc. reflexivity.
Qed.

(** C9. Below two items the [/capsule] route returns the template
    arguments of the insufficient state: no days, no items, the message; it
    raises nothing and builds no outfit. *)
Theorem capsule_below_minimum store :
  get_item_count store < 2 →
  App.capsule cosine_similarity store
  = Return {| App.days := []; App.items := ∅; App.month_name := "December";
              App.year := 2025; App.message := Some App.msg |}.
Proof.
  intros Hlt. unfold App.capsule.
  destruct (Nat.ltb_spec (get_item_count store) 2); [reflexivity | lia].
Qed.

(** From two items on the route renders a full month: 31 calendar days and
    no message. *)
Lemma capsule_full_month store :
  2 ≤ get_item_count store →
  ∃ r, App.capsule cosine_similarity store = Return r
       ∧ length (App.days r) = 31 ∧ App.message r = None.
Proof.
  intros HN. unfold App.capsule.
  destruct (Nat.ltb_spec (get_item_count store) 2); [lia|].
  pose proof (generate_capsule_outfits store) as Ho.
  pose proof (length_build_30_outfits store (build_combos_nonempty store HN))
    as Hlen.
  destruct (generate_capsule cosine_similarity store) as [outfits items_map].
  simpl in Ho. subst outfits. rewrite <- (length_imap
    (λ i item_ids, {| day := S i; items := item_ids |})) in Hlen.
  destruct (calendar_days_from_returns _ 0 ltac:(simpl; rewrite Hlen; lia))
    as (cal & Hcal & Hl).
  rewrite Hcal. cbn [mbind outcome_bind]. eexists. split; [reflexivity|].
  simpl. split; [lia|reflexivity].
Qed.

End Capsule.

(** ** Further properties of the code *)

(** *** Lists *)

Section ListFacts.

Lemma lookup_map {A B} (f : A → B) (l : list A) (j : nat) :
  map f l !! j = f <$> l !! j.
Proof. revert j. induction l as [|x r IH]; intros [|j]; simpl; auto. Qed.

Lemma lookup_map_Some {A B} (f : A → B) (l : list A) (j : nat) (x : A) :
  l !! j = Some x → map f l !! j = Some (f x).
Proof. intros H. by rewrite lookup_map, H. Qed.

Lemma elem_of_map_iff {A B} (f : A → B) (l : list A) (y : B) :
  y ∈ map f l ↔ ∃ x, y = f x ∧ x ∈ l.
Proof.
  rewrite list_elem_of_In, in_map_iff. split.
  - intros (x & <- & Hx). exists x. by rewrite list_elem_of_In.
  - intros (x & -> & Hx). exists x. by rewrite <- list_elem_of_In.
Qed.

Lemma index_pairs_elem {A} (l : list A) (a b : A) :
  (a, b) ∈ index_pairs l → a ∈ l ∧ b ∈ l.
Proof.
  induction l as [|x r IH]; simpl; [by intros H; inversion H|].
  rewrite elem_of_app, elem_of_map_iff. intros [(y & [= -> ->] & Hy)|H].
  - split; [left|by right].
  - destruct (IH H). split; by right.
Qed.

Lemma elem_of_flat_map {A B} (f : A → list B) (l : list A) (y : B) :
  y ∈ flat_map f l ↔ ∃ x, x ∈ l ∧ y ∈ f x.
Proof.
  rewrite list_elem_of_In, in_flat_map. split; intros (x & Hx & Hy); exists x;
    by rewrite ?list_elem_of_In in *.
Qed.

End ListFacts.

(** *** The classifier's regions *)

Section ClassifierRegions.
Local Open Scope Z_scope.

Ltac split_tests :=
  repeat (match goal with
          | |- context [Z.ltb ?a ?b] => destruct (Z.ltb_spec a b)
          | |- context [Z.leb ?a ?b] => destruct (Z.leb_spec a b)
          end; simpl; try lia).

(** X1. On the hue scale [[0, 179]] the three classes are exactly these
    regions: warm is the orange and yellow band, and the two red bands when
    the saturation is above 40; cool is the band from 46 to 159, and the high
    red band when the saturation is at most 40; neutral is low saturation,
    low value, and the low red band when the saturation is at most 40. *)
Theorem categorize_color_regions (h s v : Z) :
  0 ≤ h ≤ 179 →
  (categorize_color (h, s, v) = "warm"
   ↔ 15 ≤ s ∧ 20 ≤ v ∧ (15 < h ≤ 45 ∨ (h ≤ 15 ∨ 160 ≤ h) ∧ 40 < s))
  ∧ (categorize_color (h, s, v) = "cool"
     ↔ 15 ≤ s ∧ 20 ≤ v ∧ (45 < h < 160 ∨ 160 ≤ h ∧ s ≤ 40))
  ∧ (categorize_color (h, s, v) = "neutral"
     ↔ s < 15 ∨ v < 20 ∨ h ≤ 15 ∧ s ≤ 40).
Proof.
  intros Hh. unfold categorize_color.
  split_tests; repeat split; intros; first [ discriminate | lia | reflexivity ].
Qed.

Lemma categorize_color_is_a_group (hsv : HSV) :
  is_color_group (categorize_color hsv).
Proof.
  destruct hsv as [[h s] v]. unfold is_color_group, categorize_color.
  split_tests; auto.
Qed.

(** X2. The classifier returns "warm", "cool" or "neutral" on every triple
    of integers, and "neutral" whenever the hue is off the scale
    [[0, 179]]. *)
Theorem categorize_color_off_scale (h s v : Z) :
  is_color_group (categorize_color (h, s, v))
  ∧ (h < 0 ∨ 179 < h → categorize_color (h, s, v) = "neutral").
Proof.
  split; [apply categorize_color_is_a_group|].
  unfold categorize_color. intros Hh. split_tests; reflexivity.
Qed.
End ClassifierRegions.

(** *** The centre crop *)

Section Crop.
Local Open Scope Z_scope.

Lemma default_crop_lengths_ok_spec (count : nat) (n k : Z) :
  default_crop_lengths_ok count n = true → n ≤ k < n + Z.of_nat count →
  py_int (py_float k * default_crop_size) = (6 * k) `div` 10.
Proof.
  revert n. induction count as [|count IH]; intros n Hok Hk; [lia|].
  cbn [default_crop_lengths_ok] in Hok. apply andb_true_iff in Hok as [H0 Hr].
  destruct (decide (k = n)) as [->|Hne]; [by apply Z.eqb_eq|].
  apply (IH (n + 1)); [exact Hr|lia].
Qed.

Lemma default_crop_length (n : Z) :
  0 ≤ n < 65536 →
  py_int (py_float n * default_crop_size) = (6 * n) `div` 10.
Proof.
  intros Hn. apply (default_crop_lengths_ok_spec (Z.to_nat 65536) 0).
  - vm_compute. reflexivity.
  - rewrite Z2Nat.id by lia. lia.
Qed.

Lemma center_crop_default_sides (image_bgr : ndarray) :
  0 ≤ shape_h image_bgr < 65536 → 0 ≤ shape_w image_bgr < 65536 →
  shape_h (center_crop image_bgr default_crop_size)
  = (6 * shape_h image_bgr) `div` 10
  ∧ shape_w (center_crop image_bgr default_crop_size)
    = (6 * shape_w image_bgr) `div` 10.
Proof.
  intros Hh Hw. unfold center_crop.
  change ((0 <? default_crop_size) && (default_crop_size <? 1))%float with true.
  cbv zeta. cbn [andb slice2 shape_h shape_w].
  rewrite !default_crop_length by assumption.
  set (h := shape_h image_bgr) in *. set (w := shape_w image_bgr) in *.
  pose proof (Z.div_mod (6 * h) 10 ltac:(lia)).
  pose proof (Z.mod_pos_bound (6 * h) 10 ltac:(lia)).
  pose proof (Z.div_mod (6 * w) 10 ltac:(lia)).
  pose proof (Z.mod_pos_bound (6 * w) 10 ltac:(lia)).
  pose proof (Z.div_mod (h - (6 * h) `div` 10) 2 ltac:(lia)).
  pose proof (Z.mod_pos_bound (h - (6 * h) `div` 10) 2 ltac:(lia)).
  pose proof (Z.div_mod (w - (6 * w) `div` 10) 2 ltac:(lia)).
  pose proof (Z.mod_pos_bound (w - (6 * w) `div` 10) 2 ltac:(lia)).
  lia.
Qed.

(** X3. With the default crop size 0.6, an image of height [h] and width
    [w] below 65536 is cropped to [(6 * h) // 10] rows and [(6 * w) // 10]
    columns taken from inside the image, with top and bottom margins, and
    left and right margins, that differ by at most one. *)
Theorem center_crop_default_shape (image_bgr : ndarray) :
  0 ≤ shape_h image_bgr < 65536 → 0 ≤ shape_w image_bgr < 65536 →
  shape_h (center_crop image_bgr default_crop_size)
  = (6 * shape_h image_bgr) `div` 10
  ∧ shape_w (center_crop image_bgr default_crop_size)
    = (6 * shape_w image_bgr) `div` 10
  ∧ ∃ y1 x1,
      0 ≤ y1 ∧ 0 ≤ x1
      ∧ y1 + (6 * shape_h image_bgr) `div` 10 ≤ shape_h image_bgr
      ∧ x1 + (6 * shape_w image_bgr) `div` 10 ≤ shape_w image_bgr
      ∧ 0 ≤ shape_h image_bgr - (6 * shape_h image_bgr) `div` 10 - 2 * y1 ≤ 1
      ∧ 0 ≤ shape_w image_bgr - (6 * shape_w image_bgr) `div` 10 - 2 * x1 ≤ 1
      ∧ ∀ y x, pixel_at (center_crop image_bgr default_crop_size) y x
               = pixel_at image_bgr (y1 + y) (x1 + x).
Proof.
  intros Hh Hw. unfold center_crop.
  change ((0 <? default_crop_size) && (default_crop_size <? 1))%float with true.
  cbv zeta. cbn [andb].
  rewrite !default_crop_length by assumption.
  set (h := shape_h image_bgr) in *. set (w := shape_w image_bgr) in *.
  set (ch := (6 * h) `div` 10). set (cw := (6 * w) `div` 10).
  assert (0 ≤ ch ≤ h)
    by (unfold ch; split;
        [apply Z.div_pos; lia | apply Z.div_le_upper_bound; lia]).
  assert (0 ≤ cw ≤ w)
    by (unfold cw; split;
        [apply Z.div_pos; lia | apply Z.div_le_upper_bound; lia]).
  pose proof (Z.div_mod (h - ch) 2 ltac:(lia)) as Hy.
  pose proof (Z.mod_pos_bound (h - ch) 2 ltac:(lia)).
  pose proof (Z.div_mod (w - cw) 2 ltac:(lia)) as Hx.
  pose proof (Z.mod_pos_bound (w - cw) 2 ltac:(lia)).
  assert (0 ≤ (h - ch) `div` 2) by (apply Z.div_pos; lia).
  assert (0 ≤ (w - cw) `div` 2) by (apply Z.div_pos; lia).
  cbn [slice2 shape_h shape_w pixel_at]. fold h w.
  split; [lia|]. split; [lia|].
  exists ((h - ch) `div` 2), ((w - cw) `div` 2).
  repeat split; try lia.
Qed.

(** X4. With the default crop size, the crop of an image with sides below
    65536 has no pixel exactly when the image is at most one pixel high or
    at most one pixel wide. *)
Theorem center_crop_default_empty_iff (image_bgr : ndarray) :
  0 ≤ shape_h image_bgr < 65536 → 0 ≤ shape_w image_bgr < 65536 →
  pixel_count (center_crop image_bgr default_crop_size) = 0
  ↔ shape_h image_bgr ≤ 1 ∨ shape_w image_bgr ≤ 1.
Proof.
  intros Hh Hw.
  destruct (center_crop_default_sides image_bgr Hh Hw) as [Eh Ew].
  unfold pixel_count. rewrite Eh, Ew.
  set (h := shape_h image_bgr) in *. set (w := shape_w image_bgr) in *.
  pose proof (Z.div_mod (6 * h) 10 ltac:(lia)).
  pose proof (Z.mod_pos_bound (6 * h) 10 ltac:(lia)).
  pose proof (Z.div_mod (6 * w) 10 ltac:(lia)).
  pose proof (Z.mod_pos_bound (6 * w) 10 ltac:(lia)).
  rewrite Z.mul_eq_0. lia.
Qed.
End Crop.

(** *** The dominant colour *)

Section Dominant.
Local Open Scope Z_scope.

Variable cv2_resize : ndarray → Z * Z → outcome library_error ndarray.
Variable kmeans_cluster_centers :
  Z → list BGR → outcome library_error (list (float * float * float)).
Variable cv2_BGR2HSV : BGR → HSV.

#[local] Arguments astype_uint8 : simpl never.

Lemma argmax_from_spec (pre l : list Z) (best_i : nat) (best : Z) :
  pre !! best_i = Some best →
  (∀ j x, pre !! j = Some x → x ≤ best) →
  (∀ j x, (j < best_i)%nat → pre !! j = Some x → x < best) →
  ∃ m, (pre ++ l) !! argmax_from best_i best (length pre) l = Some m
       ∧ (∀ j x, (pre ++ l) !! j = Some x → x ≤ m)
       ∧ (∀ j x, (j < argmax_from best_i best (length pre) l)%nat →
                 (pre ++ l) !! j = Some x → x < m).
Proof.
  revert pre best_i best.
  induction l as [|y r IH]; intros pre best_i best Hb Hmax Hfirst.
  - rewrite app_nil_r. simpl. eauto.
  - cbn [argmax_from].
    replace (pre ++ y :: r) with ((pre ++ [y]) ++ r) by by rewrite <- app_assoc.
    replace (S (length pre)) with (length (pre ++ [y]))
      by (rewrite length_app; simpl; lia).
    destruct (Z.ltb_spec best y) as [Hlt|Hge].
    + apply IH.
      * rewrite lookup_app_r by lia. by rewrite Nat.sub_diag.
      * intros j x Hj. apply lookup_app_Some in Hj as [Hj|[_ Hj]].
        -- specialize (Hmax j x Hj). lia.
        -- apply list_lookup_singleton_Some in Hj as [_ ->]. lia.
      * intros j x Hlt' Hj.
        rewrite lookup_app_l in Hj by lia. specialize (Hmax j x Hj). lia.
    + apply IH.
      * apply lookup_app_l_Some. exact Hb.
      * intros j x Hj. apply lookup_app_Some in Hj as [Hj|[_ Hj]].
        -- by eapply Hmax.
        -- apply list_lookup_singleton_Some in Hj as [_ ->]. lia.
      * intros j x Hlt' Hj. apply lookup_lt_Some in Hb.
        rewrite lookup_app_l in Hj by lia. by eapply Hfirst.
Qed.

Lemma np_argmax_spec (l : list Z) (idx : nat) :
  np_argmax l = Return idx →
  ∃ m, l !! idx = Some m
       ∧ (∀ j x, l !! j = Some x → x ≤ m)
       ∧ (∀ j x, (j < idx)%nat → l !! j = Some x → x < m).
Proof.
  destruct l as [|x r]; [discriminate|]. intros [= <-].
  apply (argmax_from_spec [x] r 0 x).
  - reflexivity.
  - intros j y Hj. apply list_lookup_singleton_Some in Hj as [_ ->]. lia.
  - intros j y Hj. lia.
Qed.

(** X5. When the extraction returns a colour, it is the 8-bit cast of a
    cluster centre whose saturation, after conversion to HSV, is the highest
    of all centres, and the first such centre: every earlier centre has a
    strictly lower saturation. *)
Theorem dominant_color_has_highest_saturation
    (image_bgr : ndarray) (k : Z) (crop_size : float) (bgr : BGR) :
  get_dominant_color_bgr cv2_resize kmeans_cluster_centers cv2_BGR2HSV
    image_bgr k crop_size = Return bgr →
  ∃ img_small centers_f idx,
    cv2_resize (center_crop image_bgr crop_size) (150, 150) = Return img_small
    ∧ kmeans_cluster_centers k (reshape_pixels img_small) = Return centers_f
    ∧ astype_uint8 centers_f !! idx = Some bgr
    ∧ (∀ j c, astype_uint8 centers_f !! j = Some c →
              (cv2_BGR2HSV c).1.2 ≤ (cv2_BGR2HSV bgr).1.2)
    ∧ (∀ j c, (j < idx)%nat → astype_uint8 centers_f !! j = Some c →
              (cv2_BGR2HSV c).1.2 < (cv2_BGR2HSV bgr).1.2).
Proof.
  unfold get_dominant_color_bgr.
  destruct (cv2_resize _ _) as [img_small|e]; simpl; [|discriminate].
  destruct (kmeans_cluster_centers _ _) as [centers_f|e] eqn:Hk; simpl;
    [|discriminate].
  destruct (np_argmax _) as [idx|e] eqn:Hidx; simpl; [|discriminate].
  destruct (_ !! idx) as [[[b g] r]|] eqn:Hb; [|discriminate].
  intros [= <-]. exists img_small, centers_f, idx.
  split; [reflexivity|]. split; [exact Hk|]. split; [exact Hb|].
  apply np_argmax_spec in Hidx as (m & Hm & Hmax & Hfirst).
  assert (∀ j c, astype_uint8 centers_f !! j = Some c →
            map (λ '(_, s, _), s) (map cv2_BGR2HSV (astype_uint8 centers_f))
              !! j = Some (cv2_BGR2HSV c).1.2) as Hsat.
  { intros j c Hj.
    etrans; [exact (lookup_map_Some _ _ _ _ (lookup_map_Some _ _ _ _ Hj))|].
    by destruct (cv2_BGR2HSV c) as [[? ?] ?]. }
  pose proof (Hsat idx _ Hb) as Hm'.
  assert (m = (cv2_BGR2HSV (b, g, r)).1.2) as -> by congruence.
  split.
  - intros j c Hj. exact (Hmax j _ (Hsat j c Hj)).
  - intros j c Hlt Hj. exact (Hfirst j _ Hlt (Hsat j c Hj)).
Qed.

Lemma uint8_of_float_range (f : float) : 0 ≤ uint8_of_float f ≤ 255.
Proof.
  unfold uint8_of_float. pose proof (Z.mod_pos_bound (py_int f) 256). lia.
Qed.

(** X6. Every channel of a returned colour is an integer from 0 to 255. *)
Theorem dominant_color_channels_are_bytes
    (image_bgr : ndarray) (k : Z) (crop_size : float) (b g r : Z) :
  get_dominant_color_bgr cv2_resize kmeans_cluster_centers cv2_BGR2HSV
    image_bgr k crop_size = Return (b, g, r) →
  0 ≤ b ≤ 255 ∧ 0 ≤ g ≤ 255 ∧ 0 ≤ r ≤ 255.
Proof.
  intros H.
  pose proof (get_dominant_color_bgr_cases cv2_resize kmeans_cluster_centers
                cv2_BGR2HSV image_bgr k crop_size) as Hc.
  rewrite H in Hc. destruct Hc as (img_small & centers_f & _ & _ & Hin).
  unfold astype_uint8 in Hin. apply list_elem_of_In, in_map_iff in Hin.
  destruct Hin as ([[fb fg] fr] & [= <- <- <-] & _).
  repeat split; apply uint8_of_float_range.
Qed.

End Dominant.

(** *** The order of binary64 scores, and the sort *)

Section FloatOrder.

Lemma SFltb_asym (a b : spec_float) : SFltb a b = true → SFltb b a = false.
Proof.
  unfold SFltb, SFcompare.
  destruct a as [sa|sa| |sa ma ea], b as [sb|sb| |sb mb eb];
    try destruct sa; try destruct sb; simpl; try congruence;
    fold (Pos.compare ma mb); fold (Pos.compare mb ma);
    destruct (Z.compare_spec ea eb); destruct (Z.compare_spec eb ea);
    try lia; try congruence;
    destruct (Pos.compare_spec ma mb); destruct (Pos.compare_spec mb ma);
    simpl; try lia; try congruence.
Qed.

Lemma SFltb_negtrans (a b c : spec_float) :
  b ≠ S754_nan → SFltb a b = false → SFltb b c = false → SFltb a c = false.
Proof.
  unfold SFltb, SFcompare.
  destruct a as [sa|sa| |sa ma ea], b as [sb|sb| |sb mb eb],
           c as [sc|sc| |sc mc ec];
    try destruct sa; try destruct sb; try destruct sc; simpl; try congruence;
    repeat match goal with
           | |- context [Pos.compare_cont Eq ?x ?y] =>
               change (Pos.compare_cont Eq x y) with (Pos.compare x y)
           end;
    repeat match goal with
           | |- context [Z.compare ?x ?y] =>
               destruct (Z.compare_spec x y); simpl; try lia; try congruence
           end;
    repeat match goal with
           | |- context [Pos.compare ?x ?y] =>
               destruct (Pos.compare_spec x y); simpl; try lia; try congruence
           end.
Qed.

Lemma not_nan_spec (x : float) : not_nan x = true → Prim2SF x ≠ S754_nan.
Proof.
  unfold not_nan. rewrite FloatAxioms.eqb_spec. intros H E.
  rewrite E in H. discriminate.
Qed.

Lemma ltb_asym (a b : float) : (a <? b)%float = true → (b <? a)%float = false.
Proof. rewrite !FloatAxioms.ltb_spec. apply SFltb_asym. Qed.

Lemma ltb_negtrans (a b c : float) :
  not_nan b = true →
  (a <? b)%float = false → (b <? c)%float = false → (a <? c)%float = false.
Proof.
  intros Hb. rewrite !FloatAxioms.ltb_spec.
  apply SFltb_negtrans, not_nan_spec, Hb.
Qed.

Lemma ltb_irrefl (a : float) : (a <? a)%float = false.
Proof.
  destruct (a <? a)%float eqn:E; [|reflexivity].
  pose proof (ltb_asym a a E). congruence.
Qed.

End FloatOrder.

Section Ranking.
Context {A : Type}.
Implicit Types (x y : float * A) (l : list (float * A)).

Lemma insert_desc_perm x l : insert_desc x l ≡ₚ x :: l.
Proof.
  induction l as [|y r IH]; [reflexivity|].
  simpl. destruct (_ <? _)%float; [|reflexivity].
  rewrite IH. apply Permutation_swap.
Qed.

Lemma sort_desc_perm l : sort_desc l ≡ₚ l.
Proof.
  induction l as [|x r IH]; [reflexivity|].
  simpl. by rewrite insert_desc_perm, IH.
Qed.

Lemma descending_cons x l :
  descending (x :: l) ↔
  (∀ y, y ∈ l → (x.1 <? y.1)%float = false) ∧ descending l.
Proof.
  split.
  - intros H. split.
    + intros y Hy. apply list_elem_of_lookup in Hy as [j Hj].
      apply (H 0 (S j) x y); [lia|reflexivity|exact Hj].
    + intros i j a b Hij Ha Hb.
      apply (H (S i) (S j) a b); [lia|exact Ha|exact Hb].
  - intros [Hx Hl] i j a b Hij Ha Hb.
    destruct i as [|i], j as [|j]; try lia.
    + injection Ha as <-. apply Hx. by eapply list_elem_of_lookup_2.
    + apply (Hl i j a b); [lia|exact Ha|exact Hb].
Qed.

Lemma insert_desc_descending x l :
  Forall (λ y, not_nan y.1 = true) l →
  descending l → descending (insert_desc x l).
Proof.
  intros Hnan. induction l as [|y r IH]; intros Hl.
  - apply descending_cons. split; [intros y Hy; inversion Hy|].
    intros i j a b _ Ha. discriminate.
  - apply descending_cons in Hl as [Hy Hr].
    inversion_clear Hnan as [|? ? Hyn Hrn].
    simpl. destruct (x.1 <? y.1)%float eqn:E.
    + apply descending_cons. split.
      * intros z Hz. rewrite insert_desc_perm in Hz.
        apply elem_of_cons in Hz as [->|Hz]; [by apply ltb_asym|by apply Hy].
      * by apply IH.
    + apply descending_cons. split.
      * intros z Hz. apply elem_of_cons in Hz as [->|Hz]; [exact E|].
        apply (ltb_negtrans _ y.1); [exact Hyn|exact E|by apply Hy].
      * apply descending_cons. by split.
Qed.

Lemma sort_desc_descending l :
  Forall (λ y, not_nan y.1 = true) l → descending (sort_desc l).
Proof.
  induction l as [|x r IH]; intros Hnan.
  - intros i j a b _ Ha. discriminate.
  - inversion_clear Hnan as [|? ? Hx Hr]. simpl.
    apply insert_desc_descending; [|by apply IH].
    eapply Forall_forall. intros y Hy. rewrite sort_desc_perm in Hy.
    by eapply Forall_forall in Hr.
Qed.

Lemma filter_insert_desc_tied (k : float) x l :
  not_nan k = true →
  filter (λ e, tied e.1 k) (insert_desc x l)
  = filter (λ e, tied e.1 k) (x :: l).
Proof.
  intros Hk. induction l as [|y r IH]; [reflexivity|].
  simpl. destruct (x.1 <? y.1)%float eqn:E; [|reflexivity].
  rewrite (filter_cons _ y), IH, !filter_cons.
  destruct (decide (tied x.1 k)) as [[Hx1 Hx2]|Hx];
    destruct (decide (tied y.1 k)) as [[Hy1 Hy2]|Hy]; try reflexivity.
  exfalso. pose proof (ltb_negtrans _ _ _ Hk Hx1 Hy2). congruence.
Qed.

End Ranking.

(** *** The ranking and the capsule *)

Section CapsuleContents.
Context {Tensor : Type}.
Variable cosine_similarity : Tensor → Tensor → float.
Implicit Types (items store : list (Item Tensor)).

Lemma score_combos_total (combos : list (Combo Tensor)) :
  score_combos cosine_similarity combos
  = map (λ c, (total_score cosine_similarity c, ids c)) combos.
Proof. reflexivity. Qed.

Lemma build_combos_elem_structured store (c : Combo Tensor) :
  0 < length (tops store) → 0 < length (bottoms store) →
  c ∈ build_combos store ↔
  ∃ t b, t ∈ tops store ∧ b ∈ bottoms store
         ∧ (c = _make_combo [t; b]
            ∨ ∃ j, j ∈ jackets store ∧ c = _make_combo [t; b; j]).
Proof.
  intros Ht Hb. rewrite (build_combos_structured store Ht Hb).
  rewrite elem_of_flat_map. split.
  - intros (t & Htin & Hc). apply elem_of_flat_map in Hc as (b & Hbin & Hc).
    exists t, b. split; [exact Htin|]. split; [exact Hbin|].
    apply elem_of_cons in Hc as [->|Hc]; [by left|right].
    apply elem_of_map_iff in Hc as (j & -> & Hj). eauto.
  - intros (t & b & Htin & Hbin & Hc). exists t. split; [exact Htin|].
    apply elem_of_flat_map. exists b. split; [exact Hbin|].
    destruct Hc as [->|(j & Hj & ->)]; [left|right].
    apply elem_of_map_iff. eauto.
Qed.

Lemma build_combos_elem_fallback store (c : Combo Tensor) :
  ¬ (0 < length (tops store) ∧ 0 < length (bottoms store)) →
  c ∈ build_combos store →
  ∃ a b, a ∈ store ∧ b ∈ store ∧ c = _make_combo [a; b].
Proof.
  intros H. rewrite (build_combos_fallback store H).
  intros Hc. apply elem_of_map_iff in Hc as ([a b] & -> & Hab).
  apply index_pairs_elem in Hab as [Ha Hb]. eauto.
Qed.

Lemma top_ranked_elem (combos : list (Combo Tensor)) (o : list string) :
  o ∈ top_ranked cosine_similarity combos → ∃ c, c ∈ combos ∧ o = ids c.
Proof.
  unfold top_ranked. intros Ho.
  apply elem_of_map_iff in Ho as ([t o'] & -> & Hin).
  apply elem_of_take in Hin as (i & Hi & _).
  apply list_elem_of_lookup_2 in Hi. rewrite sort_desc_perm in Hi.
  rewrite score_combos_total in Hi.
  apply elem_of_map_iff in Hi as (c & [= -> ->] & Hc). eauto.
Qed.

Lemma build_30_outfits_elem store (o : list string) :
  build_combos store ≠ [] → o ∈ _build_30_outfits cosine_similarity store →
  ∃ c, c ∈ build_combos store ∧ o = ids c.
Proof.
  intros Hne Ho. apply list_elem_of_lookup in Ho as [i Hi].
  assert (i < 31) as Hlt.
  { apply lookup_lt_Some in Hi.
    by rewrite (length_build_30_outfits cosine_similarity store Hne) in Hi. }
  rewrite (build_30_outfits_lookup cosine_similarity store i Hne Hlt) in Hi.
  apply list_elem_of_lookup_2 in Hi. by apply top_ranked_elem.
Qed.

Lemma filter_elem_category store (cat : string) (it : Item Tensor) :
  it ∈ filter (λ it, category it = cat) store →
  it ∈ store ∧ category it = cat.
Proof. rewrite list_elem_of_filter. tauto. Qed.

Lemma build_30_outfits_ids store (o : list string) (i : string) :
  o ∈ _build_30_outfits cosine_similarity store → i ∈ o →
  ∃ it, it ∈ store ∧ id it = i.
Proof.
  intros Ho Hi.
  destruct (decide (build_combos store = [])) as [Hnil|Hne].
  - unfold _build_30_outfits in Ho. rewrite Hnil in Ho.
    apply elem_of_take in Ho as (k & Hk & _).
    apply list_elem_of_lookup_2, elem_of_map_iff in Hk as (it & -> & Hit).
    apply list_elem_of_singleton in Hi as ->. eauto.
  - apply (build_30_outfits_elem store o Hne) in Ho as (c & Hc & ->).
    destruct (decide (0 < length (tops store) ∧ 0 < length (bottoms store)))
      as [[Ht Hb]|Hno].
    + apply (build_combos_elem_structured store c Ht Hb) in Hc
        as (t & b & Htin & Hbin & Hc).
      apply filter_elem_category in Htin as [Htin _].
      apply filter_elem_category in Hbin as [Hbin _].
      destruct Hc as [->|(j & Hj & ->)]; simpl in Hi.
      * apply elem_of_cons in Hi as [->|Hi]; [eauto|].
        apply list_elem_of_singleton in Hi as ->. eauto.
      * apply filter_elem_category in Hj as [Hj _].
        apply elem_of_cons in Hi as [->|Hi]; [eauto|].
        apply elem_of_cons in Hi as [->|Hi]; [eauto|].
        apply list_elem_of_singleton in Hi as ->. eauto.
    + apply (build_combos_elem_fallback store c Hno) in Hc
        as (a & b & Ha & Hb & ->).
      simpl in Hi. apply elem_of_cons in Hi as [->|Hi]; [eauto|].
      apply list_elem_of_singleton in Hi as ->. eauto.
Qed.

Lemma items_map_lookup store (it : Item Tensor)
    (m : gmap string (Item Tensor)) :
  it ∈ store →
  ∃ it', foldl (λ m item, <[id item := item]> m) m store !! id it = Some it'
         ∧ id it' = id it ∧ it' ∈ store.
Proof.
  revert m. induction store as [|x r IH] using rev_ind; intros m Hin.
  - inversion Hin.
  - rewrite foldl_app. simpl.
    destruct (decide (id x = id it)) as [E|Hne].
    + exists x. rewrite <- E, lookup_insert_eq.
      split; [reflexivity|]. split; [reflexivity|].
      apply elem_of_app. right. left.
    + rewrite lookup_insert_ne by exact Hne.
      apply elem_of_app in Hin as [Hin|Hin].
      * destruct (IH m Hin) as (it' & H1 & H2 & H3). exists it'.
        split; [exact H1|]. split; [exact H2|]. apply elem_of_app. by left.
      * apply list_elem_of_singleton in Hin as ->. done.
Qed.

(** X15. Every item id on every day of a capsule is a key of the item table
    returned with it, and the table maps it to a stored item that carries
    this id. *)
Theorem capsule_ids_resolve store (o : Outfit) (i : string) :
  o ∈ (generate_capsule cosine_similarity store).1 → i ∈ items o →
  ∃ it, (generate_capsule cosine_similarity store).2 !! i = Some it
        ∧ id it = i ∧ it ∈ store.
Proof.
  intros Ho Hi. rewrite generate_capsule_outfits in Ho.
  apply list_elem_of_lookup in Ho as [k Hk].
  rewrite list_lookup_imap in Hk.
  destruct (_ !! k) as [ids|] eqn:Hids; [|discriminate].
  injection Hk as <-. simpl in Hi.
  apply list_elem_of_lookup_2 in Hids.
  destruct (build_30_outfits_ids store ids i Hids Hi) as (it & Hit & <-).
  destruct store as [|x r]; [inversion Hit|].
  apply (items_map_lookup (x :: r) it ∅ Hit).
Qed.

Lemma items_map_faithful store (m : gmap string (Item Tensor)) :
  NoDup (map id store) → (∀ it, it ∈ store → m !! id it = None) →
  (∀ it, it ∈ store →
         foldl (λ m item, <[id item := item]> m) m store !! id it = Some it)
  ∧ size (foldl (λ m item, <[id item := item]> m) m store)
    = size m + length store.
Proof.
  revert m. induction store as [|x r IH]; intros m Hnd Hfresh.
  - split; [intros it H; inversion H|simpl; lia].
  - simpl in Hnd. apply NoDup_cons in Hnd as [Hx Hnd]. simpl.
    destruct (IH (<[id x := x]> m) Hnd) as [Hl Hs].
    { intros it Hit. rewrite lookup_insert_ne; [apply Hfresh; by right|].
      intros E. apply Hx. rewrite E. apply elem_of_map_iff. eauto. }
    split.
    + intros it Hit. apply elem_of_cons in Hit as [->|Hit]; [|by apply Hl].
      clear IH Hl Hs Hfresh.
      assert (∀ m' : gmap string (Item Tensor), m' !! id x = Some x →
                foldl (λ m item, <[id item := item]> m) m' r !! id x = Some x)
        as Hkeep.
      { induction r as [|y r IHr]; intros m' Hm'; [exact Hm'|]. simpl.
        simpl in Hx. apply not_elem_of_cons in Hx as [Hxy Hx].
        apply NoDup_cons in Hnd as [_ Hnd].
        apply IHr; [exact Hx|exact Hnd|]. by rewrite lookup_insert_ne. }
      apply Hkeep. by rewrite lookup_insert_eq.
    + rewrite Hs, map_size_insert_None by (apply Hfresh; left). lia.
Qed.

(** X16. When the ids of the stored items are pairwise distinct, the item
    table maps the id of every stored item to that item and has exactly one
    entry per item. *)
Theorem items_map_of_distinct_ids store :
  NoDup (map id store) →
  (∀ it, it ∈ store →
         (generate_capsule cosine_similarity store).2 !! id it = Some it)
  ∧ size (generate_capsule cosine_similarity store).2 = get_item_count store.
Proof.
  intros Hnd.
  destruct store as [|x r]; [split; [intros it H; inversion H|done]|].
  destruct (items_map_faithful (x :: r) ∅ Hnd) as [Hl Hs]; [done|].
  split; [exact Hl|]. cbn [generate_capsule snd]. rewrite Hs, map_size_empty.
  reflexivity.
Qed.

Lemma scores_not_nan (combos : list (Combo Tensor)) :
  Forall (λ c, not_nan (total_score cosine_similarity c) = true) combos →
  Forall (λ y : float * list string, not_nan y.1 = true)
         (score_combos cosine_similarity combos).
Proof.
  intros H. rewrite score_combos_total. apply Forall_forall. intros y Hy.
  apply elem_of_map_iff in Hy as (c & -> & Hc).
  by eapply Forall_forall in H.
Qed.

(** X11. When no total score is a NaN, day 1 of the capsule carries the ids
    of a candidate combo that no candidate combo outscores. *)
Theorem first_day_is_a_best_combo store :
  build_combos store ≠ [] →
  Forall (λ c, not_nan (total_score cosine_similarity c) = true)
         (build_combos store) →
  ∃ c, c ∈ build_combos store
       ∧ (generate_capsule cosine_similarity store).1 !! 0
         = Some {| day := 1; items := ids c |}
       ∧ ∀ c', c' ∈ build_combos store →
               (total_score cosine_similarity c
                <? total_score cosine_similarity c')%float = false.
Proof.
  intros Hne Hnan.
  pose proof (sort_desc_descending _ (scores_not_nan _ Hnan)) as Hdesc.
  pose proof (sort_desc_perm
                (score_combos cosine_similarity (build_combos store)))
    as Hperm.
  pose proof (length_sort_desc
                (score_combos cosine_similarity (build_combos store)))
    as Hlen.
  assert (length (score_combos cosine_similarity (build_combos store))
          = length (build_combos store)) as Hlen'
    by (unfold score_combos; apply length_map).
  rewrite Hlen' in Hlen. clear Hlen'.
  destruct (sort_desc (score_combos cosine_similarity (build_combos store)))
    as [|[t o] sorted] eqn:Hs.
  { destruct (build_combos store); [done|].
    simpl in Hlen. discriminate Hlen. }
  assert ((t, o) ∈ score_combos cosine_similarity (build_combos store)) as Hin
    by (rewrite <- Hperm; left).
  rewrite score_combos_total in Hin.
  apply elem_of_map_iff in Hin as (c & [= -> ->] & Hc).
  exists c. split; [exact Hc|]. split.
  - rewrite generate_capsule_outfits, list_lookup_imap.
    rewrite (build_30_outfits_lookup cosine_similarity store 0 Hne) by lia.
    rewrite Nat.Div0.mod_0_l. unfold top_ranked. rewrite Hs.
    reflexivity.
  - intros c' Hc'.
    assert ((total_score cosine_similarity c', ids c')
            ∈ (total_score cosine_similarity c, ids c) :: sorted) as Hin'.
    { rewrite Hperm, score_combos_total. apply elem_of_map_iff. eauto. }
    apply list_elem_of_lookup in Hin' as [j Hj].
    destruct j as [|j].
    + injection Hj as E _. rewrite E. apply ltb_irrefl.
    + apply (Hdesc 0 (S j) _ _ ltac:(lia) eq_refl Hj).
Qed.

Lemma top_ranked_all (combos : list (Combo Tensor)) :
  length combos ≤ 31 → top_ranked cosine_similarity combos ≡ₚ map ids combos.
Proof.
  intros Hle. unfold top_ranked.
  rewrite take_ge.
  - rewrite sort_desc_perm, score_combos_total, map_map. reflexivity.
  - rewrite length_sort_desc. unfold score_combos. rewrite length_map. lia.
Qed.

(** X12. With at most 31 candidate combos, every candidate combo is the
    outfit of one of the first days of the capsule: none is dropped. *)
Theorem every_combo_is_worn store (c : Combo Tensor) :
  length (build_combos store) ≤ 31 → c ∈ build_combos store →
  ∃ i, i < length (build_combos store)
       ∧ (generate_capsule cosine_similarity store).1 !! i
         = Some {| day := S i; items := ids c |}.
Proof.
  intros Hle Hc.
  assert (build_combos store ≠ []) as Hne
    by (intros E; rewrite E in Hc; inversion Hc).
  assert (ids c ∈ top_ranked cosine_similarity (build_combos store)) as Hin.
  { rewrite (top_ranked_all _ Hle). apply elem_of_map_iff. eauto. }
  apply list_elem_of_lookup in Hin as [i Hi].
  pose proof (lookup_lt_Some _ _ _ Hi) as Hlt.
  rewrite length_top_ranked in Hlt.
  exists i. split; [lia|].
  rewrite generate_capsule_outfits, list_lookup_imap.
  rewrite (build_30_outfits_lookup cosine_similarity store i Hne) by lia.
  rewrite length_top_ranked, Nat.mod_small, Hi by lia. reflexivity.
Qed.

(** X13. With 31 candidate combos or more nothing is repeated as filler:
    the outfits are the first 31 entries of the ranking, in ranking order. *)
Theorem capsule_of_many_combos store :
  31 ≤ length (build_combos store) →
  _build_30_outfits cosine_similarity store
  = map snd (take 31 (sort_desc (score_combos cosine_similarity
                                   (build_combos store)))).
Proof.
  intros Hge.
  assert (build_combos store ≠ []) as Hne
    by (intros E; rewrite E in Hge; simpl in Hge; lia).
  assert (top_ranked cosine_similarity (build_combos store)
          = map snd (take 31 (sort_desc (score_combos cosine_similarity
                                           (build_combos store))))) as Htop.
  { unfold top_ranked. rewrite length_sort_desc. unfold score_combos at 1.
    rewrite length_map. by rewrite Nat.min_l by lia. }
  rewrite <- Htop. apply list_eq. intros i.
  destruct (decide (i < 31)) as [Hlt|Hnlt].
  - rewrite (build_30_outfits_lookup cosine_similarity store i Hne Hlt).
    rewrite length_top_ranked, Nat.min_l, Nat.mod_small by lia. reflexivity.
  - rewrite !lookup_ge_None_2; [reflexivity| |].
    + rewrite length_top_ranked. lia.
    + rewrite (length_build_30_outfits cosine_similarity store Hne). lia.
Qed.

(** X9. When no total score is a NaN, the ranking holds every candidate
    combo exactly once, with its total, and no entry has a total below the
    total of a later entry. *)
Theorem ranking_totals_descend (combos : list (Combo Tensor)) :
  Forall (λ c, not_nan (total_score cosine_similarity c) = true) combos →
  sort_desc (score_combos cosine_similarity combos)
  ≡ₚ map (λ c, (total_score cosine_similarity c, ids c)) combos
  ∧ descending (sort_desc (score_combos cosine_similarity combos)).
Proof.
  intros Hnan. split.
  - by rewrite sort_desc_perm, score_combos_total.
  - apply sort_desc_descending, scores_not_nan, Hnan.
Qed.

(** X10. When no total score is a NaN, the combos whose totals tie with a
    given score stand in the ranking in the order in which the combinator
    built them. *)
Theorem ranking_keeps_ties_in_order
    (combos : list (Combo Tensor)) (k : float) :
  Forall (λ c, not_nan (total_score cosine_similarity c) = true) combos →
  not_nan k = true →
  filter (λ e, tied e.1 k) (sort_desc (score_combos cosine_similarity combos))
  = filter (λ e, tied e.1 k) (score_combos cosine_similarity combos).
Proof.
  intros _ Hk. generalize (score_combos cosine_similarity combos).
  intros l. induction l as [|x r IH]; [reflexivity|].
  simpl. rewrite filter_insert_desc_tied by assumption.
  by rewrite !filter_cons, IH.
Qed.

(** X14. In a wardrobe with a top and a bottom, day [i + 1] of the capsule
    is numbered [i + 1] and lists the id of a stored top, then the id of a
    stored bottom, then possibly the id of a stored jacket, and nothing
    else. *)
Theorem structured_days store (i : nat) (o : Outfit) :
  0 < length (tops store) → 0 < length (bottoms store) →
  (generate_capsule cosine_similarity store).1 !! i = Some o →
  day o = S i
  ∧ ∃ t b, t ∈ store ∧ category t = "top" ∧ b ∈ store ∧ category b = "bottom"
           ∧ (items o = [id t; id b]
              ∨ ∃ j, j ∈ store ∧ category j = "jacket"
                     ∧ items o = [id t; id b; id j]).
Proof.
  intros Ht Hb Ho. rewrite generate_capsule_outfits, list_lookup_imap in Ho.
  destruct (_ !! i) as [o'|] eqn:Hi; [|discriminate]. injection Ho as <-.
  split; [reflexivity|]. simpl.
  assert (build_combos store ≠ []) as Hne.
  { intros E. pose proof (length_build_combos_structured store Ht Hb) as Hl.
    rewrite E in Hl. simpl in Hl. nia. }
  apply list_elem_of_lookup_2 in Hi.
  apply (build_30_outfits_elem store o' Hne) in Hi
    as (c & Hc & ->).
  apply (build_combos_elem_structured store c Ht Hb) in Hc
    as (t & b & Htin & Hbin & Hc).
  apply filter_elem_category in Htin as [Htin Htc].
  apply filter_elem_category in Hbin as [Hbin Hbc].
  exists t, b. repeat (split; [assumption|]).
  destruct Hc as [->|(j & Hj & ->)]; [by left|right].
  apply filter_elem_category in Hj as [Hj Hjc]. eauto.
Qed.

End CapsuleContents.

(** *** The colour score of a combo *)

Section ColorScore.

Ltac split_strings :=
  repeat match goal with
         | |- context [String.eqb ?a ?b] =>
             destruct (String.eqb_spec a b); subst; try congruence
         end.

(** X7. The colour score of a combo of at most three items does not depend
    on the order of the items. *)
Theorem outfit_color_score_ignores_order (groups groups' : list string) :
  length groups ≤ 3 → groups ≡ₚ groups' →
  _outfit_color_score groups = _outfit_color_score groups'.
Proof.
  intros Hlen Hp.
  destruct groups as [|a [|b [|c [|d r]]]]; [| | | |simpl in Hlen; lia].
  - apply Permutation_nil_l in Hp as ->. reflexivity.
  - apply Permutation_singleton_l in Hp as ->. reflexivity.
  - apply Permutation_length_2_inv in Hp as [-> | ->]; [reflexivity|].
    unfold _outfit_color_score, _pair_color_score. simpl.
    split_strings; reflexivity.
  - apply Permutation_cons_inv_l in Hp as (k1 & k2 & -> & Hp).
    assert (k1 ++ k2 = [b; c] ∨ k1 ++ k2 = [c; b]) as Hk
      by (by apply Permutation_length_2_inv).
    unfold _outfit_color_score, _pair_color_score.
    destruct k1 as [|x [|y [|z k1]]]; simpl in Hk;
      destruct Hk as [Hk|Hk]; simplify_eq; simpl;
      try (destruct k1; discriminate);
      split_strings; reflexivity.
Qed.

(** X8. Whatever their classes, three classified items have a higher colour
    score than two: the pair values are summed, not averaged. *)
Theorem three_items_outscore_two (g1 g2 h1 h2 h3 : string) :
  is_color_group g1 → is_color_group g2 →
  is_color_group h1 → is_color_group h2 → is_color_group h3 →
  (_outfit_color_score [g1; g2] <? _outfit_color_score [h1; h2; h3])%float
  = true.
Proof.
  unfold is_color_group.
  intros [->|[->| ->]] [->|[->| ->]] [->|[->| ->]] [->|[->| ->]] [->|[->| ->]];
    vm_compute; reflexivity.
Qed.
End ColorScore.

(** *** Uploads *)

Section IngestionFacts.
Context {Tensor PILImage : Type}.
Variable lib : Libraries Tensor PILImage.






Section WithScores.
Variable cosine_similarity : Tensor → Tensor → float.

End WithScores.

End IngestionFacts.

(** *** The calendar and the routes *)

Section CalendarFacts.

Lemma new_date_after_december (idx : nat) :
  31 ≤ idx → App.new_date 2025 12 (Z.of_nat idx + 1) = Raise App.ValueError.
Proof.
  intros Hi. unfold App.new_date.
  change (App.days_in_month 2025 12) with 31%Z.
  cbn [andb Z.leb Z.compare Pos.compare Pos.compare_cont].
  destruct (Z.leb_spec 1 (Z.of_nat idx + 1)); [|reflexivity].
  destruct (Z.leb_spec (Z.of_nat idx + 1) 31); [lia|reflexivity].
Qed.

Lemma calendar_days_from_raises (outfits : list Outfit) (idx : nat) :
  outfits ≠ [] → 31 < idx + length outfits →
  App.calendar_days_from idx outfits = Raise App.ValueError.
Proof.
  revert idx.
  induction outfits as [|outfit rest IH]; intros idx Hne Hlt; [done|].
  cbn [App.calendar_days_from].
  destruct (decide (idx < 31)) as [Hin|Hout].
  - rewrite new_date_december by exact Hin. cbn [mbind outcome_bind].
    rewrite IH; [reflexivity| |simpl in Hlt; lia].
    intros ->. simpl in Hlt. lia.
  - rewrite new_date_after_december by lia. reflexivity.
Qed.

Lemma december_weekday (i : nat) :
  i < 31 →
  weekday_names !! (i mod 7)
  = Some (App.strftime_A (App.mk_date 2025 12 (Z.of_nat i + 1))).
Proof.
  intros Hi. do 31 (destruct i as [|i]; [vm_compute; reflexivity|]). lia.
Qed.

Lemma calendar_days_from_lookup (outfits : list Outfit) (idx : nat)
    (calendar_days : list App.CalendarDay) (i : nat) (o : Outfit) :
  App.calendar_days_from idx outfits = Return calendar_days →
  outfits !! i = Some o →
  ∃ wd q,
    weekday_names !! ((idx + i) mod 7) = Some wd
    ∧ App.cute_quotes !! ((idx + i) mod 7) = Some q
    ∧ calendar_days !! i
      = Some {| App.day_number := Z.of_nat (idx + i) + 1; App.weekday := wd;
                App.quote := q; App.outfit := o |}.
Proof.
  revert idx calendar_days i.
  induction outfits as [|outfit rest IH]; intros idx cal i Hcal Hi;
    [discriminate|].
  assert (idx < 31) as Hidx.
  { destruct (decide (idx < 31)) as [|Hno]; [assumption|].
    rewrite calendar_days_from_raises in Hcal by (done || (simpl; lia)).
    discriminate. }
  cbn [App.calendar_days_from] in Hcal.
  rewrite new_date_december in Hcal by exact Hidx.
  cbn [mbind outcome_bind] in Hcal.
  destruct (App.calendar_days_from (S idx) rest) as [rest'|] eqn:Hrest;
    [|discriminate].
  change (length App.cute_quotes) with 7 in Hcal.
  destruct (lookup_lt_is_Some_2 App.cute_quotes (idx mod 7)) as [q Hq].
  { change (length App.cute_quotes) with 7. apply Nat.mod_upper_bound. lia. }
  rewrite Hq in Hcal. injection Hcal as <-. destruct i as [|i].
  - injection Hi as <-. rewrite Nat.add_0_r.
    eexists _, q. split; [apply (december_weekday idx Hidx)|].
    split; [exact Hq|]. reflexivity.
  - simpl in Hi.
    destruct (IH (S idx) rest' i Hrest Hi) as (wd & q' & H1 & H2 & H3).
    exists wd, q'. replace (idx + S i) with (S idx + i) by lia. auto.
Qed.

(** X21. The calendar loop of the route returns exactly when it is given at
    most 31 outfits; with more it raises the [ValueError] of
    [date(2025, 12, 32)]. *)
Theorem calendar_needs_at_most_31_outfits (outfits : list Outfit) :
  (∃ calendar_days, App.calendar_days_from 0 outfits = Return calendar_days)
  ↔ length outfits ≤ 31.
Proof.
  split.
  - intros [cal Hcal]. destruct (decide (length outfits ≤ 31)); [assumption|].
    rewrite calendar_days_from_raises in Hcal; [discriminate| |simpl; lia].
    intros ->. simpl in *. lia.
  - intros Hle.
    destruct (calendar_days_from_returns outfits 0 ltac:(simpl; lia))
      as (cal & Hcal & _). eauto.
Qed.

End CalendarFacts.

Section RouteFacts.
Context {Tensor : Type}.
Variable cosine_similarity : Tensor → Tensor → float.
Implicit Types (store : list (Item Tensor)).

(** X20. From two items on, the route renders December 2025 in full: 31
    days and no message, the item table of [generate_capsule], and for every
    outfit at position [i] a calendar day numbered [i + 1] carrying that
    outfit, with the weekday and the quote at position [i mod 7] of their
    lists (so a weekday always comes with the same quote). *)
Theorem capsule_renders_december store :
  2 ≤ get_item_count store →
  ∃ r, App.capsule cosine_similarity store = Return r
       ∧ App.message r = None
       ∧ App.month_name r = "December" ∧ App.year r = 2025%Z
       ∧ App.items r = (generate_capsule cosine_similarity store).2
       ∧ length (App.days r) = 31
       ∧ ∀ i o, (generate_capsule cosine_similarity store).1 !! i = Some o →
           ∃ wd q,
             weekday_names !! (i mod 7) = Some wd
             ∧ App.cute_quotes !! (i mod 7) = Some q
             ∧ App.days r !! i
               = Some {| App.day_number := Z.of_nat i + 1; App.weekday := wd;
                         App.quote := q; App.outfit := o |}.
Proof.
  intros HN. unfold App.capsule.
  destruct (Nat.ltb_spec (get_item_count store) 2); [lia|].
  pose proof (generate_capsule_outfits cosine_similarity store) as Ho.
  pose proof (length_build_30_outfits cosine_similarity store
                (build_combos_nonempty store HN)) as Hlen.
  destruct (generate_capsule cosine_similarity store) as [outfits items_map].
  simpl in Ho. subst outfits.
  rewrite <- (length_imap (λ i item_ids, {| day := S i; items := item_ids |}))
    in Hlen.
  destruct (calendar_days_from_returns _ 0 ltac:(simpl; rewrite Hlen; lia))
    as (cal & Hcal & Hl).
  rewrite Hcal. cbn [mbind outcome_bind]. eexists.
  split; [reflexivity|]. cbn.
  repeat (split; [reflexivity || lia|]).
  intros i o Hi. apply (calendar_days_from_lookup _ 0 cal i o Hcal Hi).
Qed.

End RouteFacts.

Section UploadFacts.
Context {Tensor FileSystem PILImage : Type}.
Variable lib : Libraries Tensor PILImage.
Variable FileStorage_save :
  App.FileStorage → string → FileSystem → outcome unit unit * FileSystem.
Variable UPLOAD_FOLDER : string.
Variable os_path_join : string → string → string.

(** X22. A form without a file, with an empty file name, without a category
    or with an empty category is answered by the redirect to the home page,
    and neither the file system nor the item list changes. *)
Theorem upload_item_rejects_incomplete_forms (request : App.Request)
    (fs : FileSystem) (_ITEMS : list (Item Tensor)) :
  App.files_item_image request = None
  ∨ (∃ f, App.files_item_image request = Some f ∧ App.file_filename f = "")
  ∨ App.form_category request = None
  ∨ App.form_category request = Some "" →
  App.upload_item FileStorage_save UPLOAD_FOLDER os_path_join
    (handle_new_item lib) request fs _ITEMS
  = (Return (App.redirect "home"), (fs, _ITEMS)).
Proof.
  unfold App.upload_item.
  intros [Hf|[(f & Hf & Hname)|[Hc|Hc]]]; rewrite ?Hf, ?Hc.
  - reflexivity.
  - destruct (App.form_category request); [|reflexivity].
    by rewrite Hname.
  - by destruct (App.files_item_image request).
  - destruct (App.files_item_image request); [|reflexivity].
    by rewrite orb_true_r.
Qed.


End UploadFacts.

(** ** The statements on concrete wardrobes and images *)

Import Examples.

Lemma pair_color_score_table_witness :
  _pair_color_score "neutral" "warm" = 3.0%float
  ∧ _pair_color_score "warm" "warm" = 2.5%float
  ∧ _pair_color_score "warm" "cool" = 1.0%float
  ∧ _pair_color_score "warm" "cool" = _pair_color_score "cool" "warm".
Proof.
  destruct pair_color_score_table as (Hn & Hs & Hd & Hsym).
  split; [|split; [|split]].
  - apply Hn. left. reflexivity.
  - apply Hs. discriminate.
  - apply Hd; discriminate.
  - apply Hsym.
Defined.

Lemma center_crop_one_pixel :
  pixel_count (center_crop one_pixel default_crop_size) = 0%Z.
Proof. reflexivity. Qed.

(** C8, as stated, fails: the centre crop of a one-pixel image has no pixel
    left, and with a resize call that refuses it the extraction ends in that
    call's error, not in [ColorExtractionError]. *)
Lemma color_extraction_error_is_never_raised :
  ¬ (∀ (cv2_resize : ndarray → Z * Z → outcome library_error ndarray)
       (kmeans_cluster_centers :
          Z → list BGR →
          outcome library_error (list (float * float * float)))
       (cv2_BGR2HSV : BGR → HSV)
       (image_bgr : ndarray) (k : Z) (crop_size : float),
       pixel_count (center_crop image_bgr crop_size) = 0%Z
       ∨ (∃ img_small,
            cv2_resize (center_crop image_bgr crop_size) (150, 150)%Z
            = Return img_small
            ∧ (Z.of_nat (length (remove_dups (reshape_pixels img_small)))
               < k)%Z) →
       get_dominant_color_bgr cv2_resize kmeans_cluster_centers cv2_BGR2HSV
         image_bgr k crop_size
       = Raise ColorExtractionError).
Proof.
  intros H.
  specialize (H (λ _ _, Raise cv2_error) (λ _ _, Raise sklearn_error)
                (λ bgr, bgr) one_pixel default_k default_crop_size
                (or_introl center_crop_one_pixel)).
  discriminate H.
Qed.

Lemma color_extraction_propagates_library_errors_witness :
  get_dominant_color_bgr (λ _ _, Raise cv2_error) (λ _ _, Raise sklearn_error)
    (λ bgr, bgr) one_pixel default_k default_crop_size
  = Raise (LibraryError cv2_error).
Proof.
  apply (color_extraction_propagates_library_errors
           (λ _ _, Raise cv2_error) (λ _ _, Raise sklearn_error) (λ bgr, bgr)
           one_pixel default_k default_crop_size).
  reflexivity.
Defined.


Lemma combinator_cardinality_witness :
  length (build_combos three_piece_store) = 1 * 1 * (1 + 1)
  ∧ length (build_combos no_bottom_store) = 3 * (3 - 1) / 2
  ∧ _build_30_outfits cos_09 [top_warm] = [["item1"]].
Proof.
  split; [|split].
  - apply (combinator_cardinality cos_09 three_piece_store); vm_compute; lia.
  - apply (combinator_cardinality cos_09 no_bottom_store); vm_compute; lia.
  - apply (combinator_cardinality cos_09 [top_warm]); vm_compute; lia.
Defined.

Lemma capsule_has_target_length_witness :
  length (generate_capsule cos_09 two_piece_store).1 = 31.
Proof.
  apply (capsule_has_target_length cos_09 two_piece_store).
  - simpl. lia.
  - vm_compute. discriminate.
Defined.

Lemma capsule_repeats_selection_cyclically_witness :
  length (top_ranked cos_09 (build_combos three_piece_store))
  = length (build_combos three_piece_store)
  ∧ ∃ item_ids,
      top_ranked cos_09 (build_combos three_piece_store)
        !! (5 mod length (build_combos three_piece_store)) = Some item_ids
      ∧ (generate_capsule cos_09 three_piece_store).1 !! 5
        = Some {| day := 6; items := item_ids |}.
Proof.
  apply (capsule_repeats_selection_cyclically cos_09 three_piece_store 5).
  - vm_compute. discriminate.
  - vm_compute. lia.
  - lia.
Defined.

Lemma capsule_below_minimum_witness :
  App.capsule cos_09 [top_warm]
  = Return {| App.days := []; App.items := ∅; App.month_name := "December";
              App.year := 2025; App.message := Some App.msg |}.
Proof. apply (capsule_below_minimum cos_09 [top_warm]). simpl. lia. Defined.

(** ** The further properties on concrete inputs *)

Lemma categorize_color_regions_witness :
  categorize_color (170, 30, 100)%Z = "cool".
Proof. apply (categorize_color_regions 170 30 100); lia. Defined.

Lemma categorize_color_off_scale_witness :
  categorize_color (200, 100, 100)%Z = "neutral".
Proof. apply (categorize_color_off_scale 200 100 100). lia. Defined.

Lemma center_crop_default_shape_witness :
  shape_h (center_crop plain_image default_crop_size)
  = ((6 * shape_h plain_image) `div` 10)%Z.
Proof. apply (center_crop_default_shape plain_image); simpl; lia. Defined.

Lemma center_crop_default_empty_iff_witness :
  pixel_count (center_crop one_pixel default_crop_size) = 0%Z
  ↔ (shape_h one_pixel ≤ 1 ∨ shape_w one_pixel ≤ 1)%Z.
Proof. apply (center_crop_default_empty_iff one_pixel); simpl; lia. Defined.

Lemma dominant_color_has_highest_saturation_witness :
  ∃ img_small centers_f idx,
    stub_resize (center_crop plain_image default_crop_size) (150, 150)%Z
    = Return img_small
    ∧ stub_kmeans default_k (reshape_pixels img_small) = Return centers_f
    ∧ astype_uint8 centers_f !! idx = Some (200, 90, 7)%Z
    ∧ (∀ j c, astype_uint8 centers_f !! j = Some c →
              ((stub_BGR2HSV c).1.2 ≤ (stub_BGR2HSV (200, 90, 7)%Z).1.2)%Z)
    ∧ (∀ j c, j < idx → astype_uint8 centers_f !! j = Some c →
              ((stub_BGR2HSV c).1.2 < (stub_BGR2HSV (200, 90, 7)%Z).1.2)%Z).
Proof.
  apply (dominant_color_has_highest_saturation stub_resize stub_kmeans
           stub_BGR2HSV plain_image default_k default_crop_size).
  vm_compute. reflexivity.
Defined.

Lemma dominant_color_channels_are_bytes_witness :
  (0 ≤ 200 ≤ 255 ∧ 0 ≤ 90 ≤ 255 ∧ 0 ≤ 7 ≤ 255)%Z.
Proof.
  apply (dominant_color_channels_are_bytes stub_resize stub_kmeans
           stub_BGR2HSV plain_image default_k default_crop_size).
  vm_compute. reflexivity.
Defined.

Lemma outfit_color_score_ignores_order_witness :
  _outfit_color_score ["warm"; "neutral"; "cool"]
  = _outfit_color_score ["cool"; "warm"; "neutral"].
Proof.
  apply outfit_color_score_ignores_order.
  - simpl. lia.
  - symmetry. apply (Permutation_cons_append ["warm"; "neutral"] "cool").
Defined.

Lemma three_items_outscore_two_witness :
  (_outfit_color_score ["neutral"; "neutral"]
   <? _outfit_color_score ["warm"; "cool"; "warm"])%float = true.
Proof.
  apply three_items_outscore_two; unfold is_color_group; auto.
Defined.

Lemma ranking_totals_descend_witness :
  sort_desc (score_combos cos_09 (build_combos three_piece_store))
  ≡ₚ map (λ c, (total_score cos_09 c, ids c)) (build_combos three_piece_store)
  ∧ descending
      (sort_desc (score_combos cos_09 (build_combos three_piece_store))).
Proof.
  apply (ranking_totals_descend cos_09 (build_combos three_piece_store)).
  repeat (constructor; [vm_compute; reflexivity|]). constructor.
Defined.

Lemma ranking_keeps_ties_in_order_witness :
  filter (λ e, tied e.1 5.46%float)
         (sort_desc (score_combos cos_09 (build_combos large_store)))
  = [ (5.46%float, ["item1"; "item7"; "item9"]);
      (5.46%float, ["item2"; "item6"; "item9"]);
      (5.46%float, ["item2"; "item8"; "item9"]);
      (5.46%float, ["item4"; "item7"; "item9"]) ].
Proof.
  etrans.
  - apply (ranking_keeps_ties_in_order cos_09 (build_combos large_store)).
    + apply (bool_decide_unpack _). vm_compute. reflexivity.
    + reflexivity.
  - vm_compute. reflexivity.
Defined.

Lemma first_day_is_a_best_combo_witness :
  ∃ c, c ∈ build_combos three_piece_store
       ∧ (generate_capsule cos_09 three_piece_store).1 !! 0
         = Some {| day := 1; items := ids c |}
       ∧ ∀ c', c' ∈ build_combos three_piece_store →
               (total_score cos_09 c <? total_score cos_09 c')%float = false.
Proof.
  apply (first_day_is_a_best_combo cos_09 three_piece_store).
  - vm_compute. discriminate.
  - repeat (constructor; [vm_compute; reflexivity|]). constructor.
Defined.

Lemma every_combo_is_worn_witness :
  ∃ i, i < length (build_combos three_piece_store)
       ∧ (generate_capsule cos_09 three_piece_store).1 !! i
         = Some {| day := S i;
                   items := ids (_make_combo [top_warm; bottom_neutral]) |}.
Proof.
  apply (every_combo_is_worn cos_09 three_piece_store).
  - vm_compute. lia.
  - vm_compute. left.
Defined.

Lemma capsule_of_many_combos_witness :
  _build_30_outfits cos_09 large_store
  = map snd (take 31 (sort_desc (score_combos cos_09
                                   (build_combos large_store)))).
Proof.
  apply (capsule_of_many_combos cos_09 large_store). vm_compute. lia.
Defined.

Lemma structured_days_witness :
  day {| day := 1; items := ["item1"; "item2"; "item3"] |} = 1
  ∧ ∃ t b, t ∈ three_piece_store ∧ category t = "top"
           ∧ b ∈ three_piece_store ∧ category b = "bottom"
           ∧ (items {| day := 1; items := ["item1"; "item2"; "item3"] |}
              = [id t; id b]
              ∨ ∃ j, j ∈ three_piece_store ∧ category j = "jacket"
                     ∧ items {| day := 1;
                                items := ["item1"; "item2"; "item3"] |}
                       = [id t; id b; id j]).
Proof.
  apply (structured_days cos_09 three_piece_store 0).
  - vm_compute. lia.
  - vm_compute. lia.
  - vm_compute. reflexivity.
Defined.

Lemma capsule_ids_resolve_witness :
  ∃ it, (generate_capsule cos_09 two_piece_store).2 !! "item1" = Some it
        ∧ id it = "item1" ∧ it ∈ two_piece_store.
Proof.
  apply (capsule_ids_resolve cos_09 two_piece_store
           {| day := 1; items := ["item1"; "item2"] |}).
  - vm_compute. left.
  - simpl. left.
Defined.

Lemma items_map_of_distinct_ids_witness :
  (∀ it, it ∈ two_piece_store →
         (generate_capsule cos_09 two_piece_store).2 !! id it = Some it)
  ∧ size (generate_capsule cos_09 two_piece_store).2
    = get_item_count two_piece_store.
Proof.
  apply (items_map_of_distinct_ids cos_09 two_piece_store).
  apply (bool_decide_unpack _). vm_compute. reflexivity.
Defined.




Lemma capsule_renders_december_witness :
  ∃ r, App.capsule cos_09 two_piece_store = Return r
       ∧ App.message r = None
       ∧ App.month_name r = "December" ∧ App.year r = 2025%Z
       ∧ App.items r = (generate_capsule cos_09 two_piece_store).2
       ∧ length (App.days r) = 31
       ∧ ∀ i o, (generate_capsule cos_09 two_piece_store).1 !! i = Some o →
           ∃ wd q,
             weekday_names !! (i mod 7) = Some wd
             ∧ App.cute_quotes !! (i mod 7) = Some q
             ∧ App.days r !! i
               = Some {| App.day_number := Z.of_nat i + 1; App.weekday := wd;
                         App.quote := q; App.outfit := o |}.
Proof.
  apply (capsule_renders_december cos_09 two_piece_store). simpl. lia.
Defined.

Lemma upload_item_rejects_incomplete_forms_witness :
  App.upload_item stub_save "uploads" stub_join (handle_new_item stub_lib)
    (App.mk_Request None (Some "top")) [] []
  = (Return (App.redirect "home"), ([], [])).
Proof.
  apply (upload_item_rejects_incomplete_forms stub_lib stub_save "uploads"
           stub_join (App.mk_Request None (Some "top")) [] []).
  left. reflexivity.
Defined.

